(** * Internshala bot suite: conversation extraction, login retry and
      human-paced typing, embedded from the JavaScript sources.

    Sources embedded here:
    - [src/stealth.js]   : [StealthManager.randomDelay], [StealthManager.humanType]
    - [src/auth.js]      : [AuthManager.performLogin], [AuthManager.waitForLoginResult]
    - [src/bot.js]       : [InternshalaBot.isLoggedIn], [InternshalaBot.login]
    - the chat manager   : [scrollToLoadHistory], [getMessageCount],
                           [extractMessages], [extractMessageData],
                           [startLiveListener]

    Conventions.  Integers of the program (counts, milliseconds) are [Z] or
    [nat]; a value of [Math.random()] is a rational [Q]; a thrown [Error] is
    its message; the browser (Playwright page, DOM, keyboard, clock) is an
    explicit argument of every function that touches it. *)

From Stdlib Require Import ZArith List String Ascii Bool Lia QArith Qround.
From Stdlib Require Import DecimalString.
From Stdlib Require Import Lqa.
Import ListNotations.

Local Open Scope string_scope.
Local Open Scope Z_scope.

(* ================================================================== *)
(** * Part I : the embedding                                           *)
(* ================================================================== *)

(** ** JavaScript primitives used by the sources *)
Module JS.

(** Outcome of an [async] call: it resolves with a value or rejects with
    an [Error], represented by its [message]. *)
Inductive Completion (A : Type) : Type :=
| Resolved (a : A)
| Thrown (message : string).
Arguments Resolved {A} a.
Arguments Thrown {A} message.

(** [s.startsWith(p)] *)
Fixpoint startsWith (p s : string) : bool :=
  match p, s with
  | EmptyString, _ => true
  | String a p', String b s' => Ascii.eqb a b && startsWith p' s'
  | String _ _, EmptyString => false
  end.

(** [s.includes(needle)] *)
Fixpoint includes (s needle : string) : bool :=
  startsWith needle s
  || match s with
     | EmptyString => false
     | String _ s' => includes s' needle
     end.

(** White space removed by [String.prototype.trim], on the ASCII range:
    TAB, LF, VT, FF, CR and SPACE. *)
Definition isSpace (c : ascii) : bool :=
  let n := nat_of_ascii c in
  ((9 <=? n)%nat && (n <=? 13)%nat) || (n =? 32)%nat.

Fixpoint trimStart (s : string) : string :=
  match s with
  | String c s' => if isSpace c then trimStart s' else s
  | EmptyString => EmptyString
  end.

(** Drops the white space that ends [s]: a character is kept when it is not
    a space or when something is kept after it. *)
Fixpoint trimEnd (s : string) : string :=
  match s with
  | EmptyString => EmptyString
  | String c s' =>
      match trimEnd s' with
      | EmptyString => if isSpace c then EmptyString else String c EmptyString
      | kept => String c kept
      end
  end.

Definition trim (s : string) : string := trimEnd (trimStart s).

(** Truthiness of a string value: [""] is falsy. *)
Definition truthy (s : string) : bool :=
  match s with EmptyString => false | _ => true end.

(** [a || b] on values that are a string or [null]/[undefined]. *)
Definition orElse (a b : option string) : option string :=
  match a with
  | Some s => if truthy s then a else b
  | None => b
  end.

(** [a || d] where [d] is a string that ends the chain. *)
Definition orDefault (a : option string) (d : string) : string :=
  match a with
  | Some s => if truthy s then s else d
  | None => d
  end.

(** Decimal rendering of an integer, as in a template literal. *)
Definition showZ (z : Z) : string := NilZero.string_of_int (Z.to_int z).

(** [x < y] on the rationals standing for JavaScript numbers. *)
Definition Qltb (x y : Q) : bool := negb (Qle_bool y x).

(** [Math.floor(r * n)] *)
Definition floorMul (r : Q) (n : Z) : Z := Qfloor (r * inject_Z n).

End JS.

(** ** [src/stealth.js] : human-like timing and typing *)
Module Stealth.
Import JS.

(** Keys sent through [page.keyboard]. *)
Inductive Key :=
| Backspace
| Char (c : ascii).

(** What the typing code acts on: the successive values of [Math.random()],
    how many of them were consumed, the content of the focused input (caret
    at its end), the time slept so far, and the keys sent. *)
Record World := mkWorld {
  draws   : nat -> Q;
  cursor  : nat;
  field   : string;
  elapsed : Z;
  keys    : list Key
}.

(** State monad over [World]. *)
Definition Sim (A : Type) : Type := World -> A * World.

Definition ret {A} (a : A) : Sim A := fun w => (a, w).

Definition bind {A B} (m : Sim A) (k : A -> Sim B) : Sim B :=
  fun w => let (a, w') := m w in k a w'.

Notation "x <- m ;; k" := (bind m (fun x => k))
  (at level 61, m at next level, right associativity).
Notation "m ;; k" := (bind m (fun _ => k))
  (at level 61, right associativity).

(** [Math.random()] *)
Definition mathRandom : Sim Q :=
  fun w => (draws w (cursor w),
            mkWorld (draws w) (S (cursor w)) (field w) (elapsed w) (keys w)).

(** [await new Promise(resolve => setTimeout(resolve, delay))] *)
Definition sleep (delay : Z) : Sim unit :=
  fun w => (tt, mkWorld (draws w) (cursor w) (field w) (elapsed w + delay) (keys w)).

(** [randomDelay(min, max)]:
    [delay = Math.floor(Math.random() * (max - min + 1)) + min]. *)
Definition delayOf (min max : Z) (r : Q) : Z := floorMul r (max - min + 1) + min.

Definition randomDelay (min max : Z) : Sim unit :=
  r <- mathRandom ;; sleep (delayOf min max r).

(** Removes the last character of the input, if any. *)
Fixpoint dropLast (s : string) : string :=
  match s with
  | EmptyString => EmptyString
  | String c EmptyString => EmptyString
  | String c s' => String c (dropLast s')
  end.

(** Effect of one key on the focused input. *)
Definition applyKey (k : Key) (content : string) : string :=
  match k with
  | Backspace => dropLast content
  | Char c => content ++ String c EmptyString
  end.

(** [page.keyboard.press('Backspace')] and [page.keyboard.type(char)] *)
Definition send (k : Key) : Sim unit :=
  fun w => (tt, mkWorld (draws w) (cursor w) (applyKey k (field w))
                        (elapsed w) (keys w ++ [k])).

(** Body of [for (let i = 0; i < text.length; i++)] of [humanType], from
    index [i] on the remaining characters. *)
Fixpoint typeFrom (i : nat) (text : string) : Sim unit :=
  match text with
  | EmptyString => ret tt
  | String char rest =>
      r <- mathRandom ;;
      let typingDelay := floorMul r 150 + 50 in
      mistake <- mathRandom ;;
      (if Qltb mistake (2 # 100) && (0 <? i)%nat
       then send Backspace ;; randomDelay 100 200
       else ret tt) ;;
      send (Char char) ;;
      randomDelay typingDelay (typingDelay + 50) ;;
      think <- mathRandom ;;
      (if Qltb think (1 # 10) then randomDelay 300 800 else ret tt) ;;
      typeFrom (S i) rest
  end.

(** [humanType(page, element, text)]: [element.focus()] makes [field] the
    content that the keys act on. *)
Definition humanType (text : string) : Sim unit :=
  randomDelay 100 300 ;; typeFrom 0 text.

(** A world in which nothing was typed yet. *)
Definition fresh (rnd : nat -> Q) (content : string) : World :=
  mkWorld rnd 0 content 0 [].

(** The characters typed, without the corrections. *)
Fixpoint typedChars (ks : list Key) : string :=
  match ks with
  | [] => EmptyString
  | Backspace :: ks' => typedChars ks'
  | Char c :: ks' => String c (typedChars ks')
  end.

End Stealth.

(** ** [src/auth.js] : the login flow and its retry policy *)
Module Auth.
Import JS.

(** Fields set by the constructor of [AuthManager]. *)
Definition maxRetries : nat := 3.
Definition retryDelay : Z := 2000.

(** How the [Promise.race] of [waitForLoginResult] settles: one of the three
    success waits resolves first, the error element shows up first (its
    [then] throws), or the race rejects with another error, such as a
    Playwright wait running out of time. *)
Inductive Race :=
| SuccessSignal
| ErrorSignal
| Rejected (message : string).

(** The page as the steps of one login attempt observe it. *)
Record LoginPage := mkLoginPage {
  navigation     : option string;  (* [page.goto] rejects with this message *)
  probeFails     : bool;           (* a call of [isAlreadyLoggedIn] on the page throws *)
  urlAtLogin     : string;         (* [page.url()] read by [isAlreadyLoggedIn] *)
  userElements   : nat;            (* matches of '.user-profile, .dashboard-container, .student-name' *)
  emailFieldWait : option string;  (* the wait for the email input rejects with this message *)
  credentialsSet : bool;           (* USER_EMAIL and USER_PASSWORD are both set and not empty *)
  submitButton   : option bool;    (* first submit control found; [Some false]: it has no bounding box *)
  race           : Race;
  urlAfter       : string;         (* [page.url()] after the race *)
  errorElement   : option string;  (* text of '.error-message, .alert-danger, .login-error' *)
  accountIssue   : option string   (* text of '.error_content, .account_hold, .violation' *)
}.

(** [isAlreadyLoggedIn]: its [catch] answers [false]. *)
Definition isAlreadyLoggedIn (p : LoginPage) : bool :=
  if probeFails p then false
  else if includes (urlAtLogin p) "dashboard" || includes (urlAtLogin p) "student/profile"
  then true
  else (0 <? userElements p)%nat.

(** [fillLoginForm], as far as it can throw: the wait for the form and the
    test of the credentials.  The typing itself is [Stealth.humanType]. *)
Definition fillLoginForm (p : LoginPage) : Completion unit :=
  match emailFieldWait p with
  | Some message => Thrown message
  | None =>
      if credentialsSet p then Resolved tt
      else Thrown "USER_EMAIL and USER_PASSWORD must be set in .env file"
  end.

Definition submitLoginForm (p : LoginPage) : Completion unit :=
  match submitButton p with
  | None => Thrown "Could not find submit button"
  | Some false => Thrown "Element not visible for clicking"
  | Some true => Resolved tt
  end.

(** The [try] block of [waitForLoginResult]. *)
Definition loginResultTry (p : LoginPage) : Completion unit :=
  match race p with
  | ErrorSignal => Thrown "Login error detected"
  | Rejected message => Thrown message
  | SuccessSignal =>
      if negb (includes (urlAfter p) "dashboard") && negb (includes (urlAfter p) "student")
      then match errorElement p with
           | Some errorText => Thrown ("Login failed: " ++ errorText)
           | None => Thrown "Login may have failed - not redirected to dashboard"
           end
      else Resolved tt
  end.

(** [waitForLoginResult]: its [catch] renames errors that mention a
    timeout and rethrows the others. *)
Definition waitForLoginResult (p : LoginPage) : Completion unit :=
  match loginResultTry p with
  | Resolved u => Resolved u
  | Thrown message =>
      if includes message "Timeout"
      then Thrown "Login timeout - page did not redirect after form submission"
      else Thrown message
  end.

(** The [try] block of one iteration of [performLogin], after [attempt++].
    [handleCaptcha] catches all its errors and decides nothing here. *)
Definition attemptOnce (p : LoginPage) : Completion unit :=
  match navigation p with
  | Some message => Thrown message
  | None =>
      if isAlreadyLoggedIn p then Resolved tt
      else match fillLoginForm p with
           | Thrown message => Thrown message
           | Resolved _ =>
               match submitLoginForm p with
               | Thrown message => Thrown message
               | Resolved _ => waitForLoginResult p
               end
           end
  end.

(** What a run of [performLogin] does, in order. *)
Inductive Event :=
| Attempt (n : nat)
| Backoff (after : nat) (ms : Z).

(** The [while (attempt < this.maxRetries)] loop; [remaining] is
    [maxRetries - attempt], which decreases at each iteration.  [pages n] is
    the page during attempt [n], [rnd n] the value of [Math.random()] drawn
    by the back-off that follows attempt [n]. *)
Fixpoint loginLoop (remaining attempt : nat)
         (pages : nat -> LoginPage) (rnd : nat -> Q)
  : list Event * Completion unit :=
  match remaining with
  | O => ([], Resolved tt)
  | S remaining' =>
      let attempt := S attempt in
      match attemptOnce (pages attempt) with
      | Resolved _ => ([Attempt attempt], Resolved tt)
      | Thrown message =>
          if (attempt =? maxRetries)%nat
          then ([Attempt attempt],
                Thrown ("Login failed after " ++ showZ (Z.of_nat maxRetries)
                        ++ " attempts: " ++ message))
          else
            let delay := retryDelay * 2 ^ (Z.of_nat attempt - 1) in
            let waited := Stealth.delayOf delay (delay + 1000) (rnd attempt) in
            let (events, outcome) := loginLoop remaining' attempt pages rnd in
            (Attempt attempt :: Backoff attempt waited :: events, outcome)
      end
  end.

Definition performLogin (pages : nat -> LoginPage) (rnd : nat -> Q)
  : list Event * Completion unit :=
  loginLoop maxRetries 0 pages rnd.

(** Number of attempts made and total time backed off in a run. *)
Fixpoint attempts (events : list Event) : nat :=
  match events with
  | [] => 0
  | Attempt _ :: rest => S (attempts rest)
  | Backoff _ _ :: rest => attempts rest
  end.

Fixpoint totalBackoff (events : list Event) : Z :=
  match events with
  | [] => 0
  | Attempt _ :: rest => totalBackoff rest
  | Backoff _ ms :: rest => ms + totalBackoff rest
  end.

(** The page shows the account-on-hold phrase in its error markup. *)
Definition showsOnHold (p : LoginPage) : bool :=
  match errorElement p, accountIssue p with
  | Some t, _ => includes t "put on hold"
  | None, Some t => includes t "put on hold"
  | None, None => false
  end.

End Auth.

(** ** [src/bot.js] : session reuse before a fresh login *)
Module Bot.
Import JS.

(** The dashboard page as [isLoggedIn] probes it. *)
Record Dashboard := mkDashboard {
  probeFails       : bool;           (* a [page.$] call throws *)
  accountIssue     : option string;  (* text of '.error_content, .account_hold, .violation' *)
  dashboardElement : bool            (* '.dashboard-container, .user-profile, .student-dashboard' *)
}.

Definition isLoggedIn (d : Dashboard) : bool :=
  if probeFails d then false
  else
    let onHold := match accountIssue d with
                  | Some errorText => truthy errorText && includes errorText "put on hold"
                  | None => false
                  end in
    if onHold then false else dashboardElement d.

(** [login()]: [cookies] is the number of cookies [loadCookies] returned.
    The result tells whether [performLogin] was reached, with its run. *)
Definition login (cookies : nat) (d : Dashboard)
           (pages : nat -> Auth.LoginPage) (rnd : nat -> Q)
  : list Auth.Event * Completion unit :=
  if (0 <? cookies)%nat && isLoggedIn d
  then ([], Resolved tt)
  else Auth.performLogin pages rnd.

End Bot.

(** ** The chat manager: extraction, history scroll and live watch *)
Module Chat.
Import JS.

(** The selector [[class*=QvQ]], where [Q] is the double quote. *)
Definition quote : string := String (ascii_of_nat 34) EmptyString.
Definition attrContains (v : string) : string :=
  "[class*=" ++ quote ++ v ++ quote ++ "]".

(** [this.messageSelectors], in the order of the constructor. *)
Definition messageSelectors : list string :=
  [ ".message_container .message"; ".message_inner"; ".text-message";
    ".message_history_element"; ".message_receiver"; ".message_sender";
    ".chat_element .message"; ".message-item"; ".chat-message";
    ".message-bubble"; ".conversation-message"; ".msg-item"; ".message";
    ".chat-msg"; ".msg"; ".message-row"; ".chat-bubble";
    attrContains "message"; attrContains "msg"; attrContains "chat-";
    ".message-content" ].

(** *** The DOM seen by the extraction callback *)
#[local] Set Warnings "-register-all".
Inductive Node :=
| TextNode (data : string)
| Element (classList : list string) (attributes : list (string * string))
          (childNodes : list Node).

(** An element handle returned by [page.$$]: the element, the class lists
    of its ancestors (nearest first), and whether [element.evaluate]
    rejects on it (the element left the page). *)
Record Handle := mkHandle {
  classList  : list string;
  attributes : list (string * string);
  childNodes : list Node;
  ancestors  : list (list string);
  detached   : bool
}.

Definition hasClass (classes : list string) (name : string) : bool :=
  existsb (String.eqb name) classes.

(** The element matches a selector list [.a, .b, ...] of class selectors. *)
Definition matchesAny (wanted classes : list string) : bool :=
  existsb (hasClass classes) wanted.

(** [node.textContent]: the text of all descendants, in document order. *)
Fixpoint textContent (n : Node) : string :=
  match n with
  | TextNode data => data
  | Element _ _ kids =>
      (fix all (ks : list Node) : string :=
         match ks with
         | [] => EmptyString
         | k :: ks' => textContent k ++ all ks'
         end) kids
  end.

(** First node of the subtree [n] (the node itself included) that is an
    element matching the selector list, in document order. *)
Fixpoint firstMatch (wanted : list string) (n : Node) : option Node :=
  match n with
  | TextNode _ => None
  | Element classes _ kids =>
      if matchesAny wanted classes then Some n
      else (fix among (ks : list Node) : option Node :=
              match ks with
              | [] => None
              | k :: ks' =>
                  match firstMatch wanted k with
                  | Some found => Some found
                  | None => among ks'
                  end
              end) kids
  end.

(** [el.querySelector('.a, .b, ...')]: first matching descendant. *)
Fixpoint querySelector (wanted : list string) (kids : list Node) : option Node :=
  match kids with
  | [] => None
  | k :: kids' =>
      match firstMatch wanted k with
      | Some found => Some found
      | None => querySelector wanted kids'
      end
  end.

(** [el.closest('.a, .b, ...')] is not [null]: the element or one of its
    ancestors matches. *)
Definition closest (wanted : list string) (el : Handle) : bool :=
  existsb (matchesAny wanted) (classList el :: ancestors el).

Fixpoint getAttribute (attrs : list (string * string)) (name : string)
  : option string :=
  match attrs with
  | [] => None
  | (k, v) :: rest => if String.eqb k name then Some v else getAttribute rest name
  end.

(** [el.className] *)
Definition className (el : Handle) : string := String.concat " " (classList el).

(** [x?.textContent?.trim()] *)
Definition trimmedText (found : option Node) : option string :=
  match found with
  | Some n => Some (trim (textContent n))
  | None => None
  end.

(** *** Messages *)
Record Message := mkMessage {
  id            : string;
  text          : string;
  sender        : string;
  timestamp     : string;
  type          : string;
  element_class : string
}.

(** The structural markers of an outgoing message. *)
Definition ownMarkers : list string :=
  ["own-message"; "sent"; "outgoing"; "message_sender"].

(** Truthiness of [isOwnMessage]:
    [classList.contains(..) || .. || el.closest('.own-message, .sent, .outgoing, .message_sender')] *)
Definition isOwnMessage (el : Handle) : bool :=
  hasClass (classList el) "own-message"
  || hasClass (classList el) "sent"
  || hasClass (classList el) "outgoing"
  || hasClass (classList el) "message_sender"
  || closest ownMarkers el.



Section Extraction.

(** The [Date] built-ins of the engine: [Date_parse s] is the time value
    of [new Date(s)], [None] when it is [NaN] (Invalid Date);
    [toISOString t] renders the time value [t]. *)
Variable Date_parse : string -> option Z.
Variable toISOString : Z -> string.

(** [const now = new Date(); now.setMinutes(now.getMinutes() - idx);
    timestamp = now.toISOString()], in a zone of fixed offset. *)
Definition synthesized (now : Z) (idx : nat) : string :=
  toISOString (now - Z.of_nat idx * 60000).

(** The timestamp text found on the page, [null] when there is none. *)
Definition rawTimestamp (el : Handle) : option string :=
  orElse (orElse (trimmedText (querySelector
                    ["timestamp"; "time"; "message-time"; "msg-time"] (childNodes el)))
                 (getAttribute (attributes el) "data-time"))
         (getAttribute (attributes el) "timestamp").

(** The [if (!timestamp) .. else { try .. catch .. }] of the callback. *)
Definition resolveTimestamp (raw : option string) (now : Z) (idx : nat) : string :=
  match raw with
  | None => synthesized now idx
  | Some timestamp =>
      if negb (truthy timestamp) then synthesized now idx
      else if includes timestamp "T" && includes timestamp "Z"
      then match Date_parse timestamp with
           | Some _ => timestamp
           | None => synthesized now idx    (* 'Invalid date' thrown and caught *)
           end
      else synthesized now idx
  end.

(** The callback run by [element.evaluate] in [extractMessageData]; [now]
    is the clock during the call. *)
Definition evaluateMessage (el : Handle) (now : Z) (idx : nat) : option Message :=
  let text :=
    match querySelector ["message-text"; "msg-text"; "text-content"] (childNodes el) with
    | Some textElement => trim (textContent textElement)
    | None => trim (textContent (Element (classList el) (attributes el) (childNodes el)))
    end in
  if negb (truthy text) then None
  else
    let own := isOwnMessage el in
    let timestamp := resolveTimestamp (rawTimestamp el) now idx in
    let sender :=
      orDefault (trimmedText (querySelector ["sender-name"; "msg-sender"; "author"]
                                            (childNodes el)))
                (if own then "me" else "other") in
    let messageId :=
      orDefault (orElse (getAttribute (attributes el) "data-id")
                        (getAttribute (attributes el) "id"))
                ("msg_" ++ showZ now ++ "_" ++ showZ (Z.of_nat idx)) in
    Some (mkMessage messageId text sender timestamp
                    (if own then "sent" else "received") (className el)).

(** [extractMessageData(page, element, index)]: a rejected [evaluate] is
    caught and gives [null]. *)
Definition extractMessageData (el : Handle) (now : Z) (idx : nat) : option Message :=
  if detached el then None else evaluateMessage el now idx.

(** *** A page: what [page.$$(selector)] gives for each selector *)
Definition Page : Type := string -> Completion (list Handle).

(** The inner [for] loop of [extractMessages], from index [i]; [clock i]
    is the clock while element [i] is evaluated. *)
Fixpoint extractEach (clock : nat -> Z) (i : nat) (elements : list Handle)
  : list Message :=
  match elements with
  | [] => []
  | element :: rest =>
      match extractMessageData element (clock i) i with
      | Some message =>
          if truthy (text message)
          then message :: extractEach clock (S i) rest
          else extractEach clock (S i) rest
      | None => extractEach clock (S i) rest
      end
  end.

(** The outer [for (const selector of this.messageSelectors)] loop with
    its [break]. *)
Fixpoint collect (selectors : list string) (page : Page) (clock : nat -> Z)
  : list Message :=
  match selectors with
  | [] => []
  | selector :: rest =>
      match page selector with
      | Resolved messageElements =>
          if (0 <? List.length messageElements)%nat
          then extractEach clock 0 messageElements
          else collect rest page clock
      | Thrown _ => collect rest page clock
      end
  end.


(** [new Date(a.timestamp) - new Date(b.timestamp)], [None] for [NaN]. *)
Definition timeDiff (a b : Message) : option Z :=
  match Date_parse (timestamp a), Date_parse (timestamp b) with
  | Some ta, Some tb => Some (ta - tb)
  | _, _ => None
  end.

(** [Array.prototype.sort] with that comparator: a stable sort, in which
    a [NaN] from the comparator counts as [+0]. *)
Definition before (a b : Message) : bool :=
  match timeDiff a b with
  | Some d => d <=? 0
  | None => true
  end.

Fixpoint insertSorted (m : Message) (sorted : list Message) : list Message :=
  match sorted with
  | [] => [m]
  | x :: rest => if before x m then x :: insertSorted m rest else m :: x :: rest
  end.

Definition sortByTimestamp (messages : list Message) : list Message :=
  fold_left (fun sorted m => insertSorted m sorted) messages [].

(** The predicate given to [findIndex]: same text and time values less
    than 1000 ms apart. *)
Definition sameMessage (message m : Message) : bool :=
  String.eqb (text m) (text message)
  && match timeDiff m message with
     | Some d => Z.abs d <? 1000
     | None => false
     end.

(** [array.findIndex(pred)], [-1] when nothing satisfies [pred]. *)
Fixpoint findIndexFrom {A} (pred : A -> bool) (i : Z) (array : list A) : Z :=
  match array with
  | [] => -1
  | x :: rest => if pred x then i else findIndexFrom pred (i + 1) rest
  end.

Definition findIndex {A} (pred : A -> bool) (array : list A) : Z :=
  findIndexFrom pred 0 array.

(** [messages.filter((message, index, array) => index === array.findIndex(..))],
    on the elements from [index] on. *)
Fixpoint filterFirsts (array : list Message) (index : Z) (rest : list Message)
  : list Message :=
  match rest with
  | [] => []
  | message :: rest' =>
      if index =? findIndex (sameMessage message) array
      then message :: filterFirsts array (index + 1) rest'
      else filterFirsts array (index + 1) rest'
  end.

Definition uniqueMessages (array : list Message) : list Message :=
  filterFirsts array 0 array.

(** [extractMessages(page)] *)
Definition extractMessages (page : Page) (clock : nat -> Z) : list Message :=
  uniqueMessages (sortByTimestamp (collect messageSelectors page clock)).

End Extraction.

(** [getMessageCount(page)]: the loop over the selectors, with [count]. *)
Fixpoint countFrom (selectors : list string) (page : Page) (count : nat) : nat :=
  match selectors with
  | [] => count
  | selector :: rest =>
      match page selector with
      | Resolved elements =>
          if (count <? List.length elements)%nat
          then countFrom rest page (List.length elements)
          else countFrom rest page count
      | Thrown _ => countFrom rest page count
      end
  end.

Definition getMessageCount (page : Page) : nat := countFrom messageSelectors page 0.

(** *** [scrollToLoadHistory] *)
Definition maxScrollAttempts : nat := 10.

(** The [while (scrollAttempt < maxScrollAttempts)] loop; [remaining] is
    [maxScrollAttempts - scrollAttempt].  [pages k] is the page when the
    count is read for the [k]-th time (from 0), that is after [k] scrolls.
    The result is the final [scrollAttempt], the number of scrolls made,
    and whether the loop left through its [break]. *)
Fixpoint scrollLoop (remaining scrollAttempt previousMessageCount : nat)
         (pages : nat -> Page) : nat * bool :=
  match remaining with
  | O => (scrollAttempt, false)
  | S remaining' =>
      let currentMessageCount := getMessageCount (pages scrollAttempt) in
      if (currentMessageCount =? previousMessageCount)%nat && (2 <? scrollAttempt)%nat
      then (scrollAttempt, true)
      else scrollLoop remaining' (S scrollAttempt) currentMessageCount pages
  end.

Definition scrollToLoadHistory (pages : nat -> Page) : nat * bool :=
  scrollLoop maxScrollAttempts 0 0 pages.

(** Number of consecutive reads, the last of them read [k], that each found
    the count of the read before. *)
Fixpoint unchangedReads (counts : nat -> nat) (k : nat) : nat :=
  match k with
  | O => 0
  | S j => if (counts (S j) =? counts j)%nat then S (unchangedReads counts j) else 0
  end.

(** *** [startLiveListener] *)

(** Identifiers that [startLiveListener] can resolve: its parameters, the
    bindings it declares, and the bindings of the module (its [import] and
    its class). *)
Definition listenerParameters : list string :=
  ["page"; "conversationId"; "storage"; "isListeningCallback"].
Definition listenerLocals : list string :=
  ["newMessages"; "element"; "messageData"; "error"].
Definition moduleBindings : list string := ["logger"; "ChatManager"].

Definition resolves (name : string) : bool :=
  existsb (String.eqb name) (listenerParameters ++ listenerLocals ++ moduleBindings).

(** [await stealth.randomDelay(min, max)] evaluated inside
    [startLiveListener]: the time slept, or the [ReferenceError] of an
    identifier that resolves to nothing. *)
Definition stealthRandomDelay (min max : Z) (r : Q) : Completion Z :=
  if resolves "stealth" then Resolved (Stealth.delayOf min max r)
  else Thrown "stealth is not defined".

Inductive ListenEvent :=
| Consulted (cycle : nat) (listening : bool)  (* [isListeningCallback()] *)
| Appended (m : Message)                      (* [storage.appendMessage] *)
| Unmarked                                    (* [removeAttribute('data-new-message')] *)
| Slept (ms : Z)
| LoggedError (context message : string)      (* [logger.error] *)
| Disconnected.                               (* the [finally] block *)

Inductive ListenOutcome :=
| Cancelled                       (* the callback reported [false] *)
| Failed (message : string)       (* the error rethrown to the caller *)
| StillListening.                 (* more cycles than were observed *)

Section Listener.

Variable Date_parse : string -> option Z.
Variable toISOString : Z -> string.
(** [conversationId] is truthy. *)
Variable conversationId : bool.
(** [storage.appendMessage(conversationId, m)] resolves or rejects. *)
Variable appendMessage : Message -> Completion unit.

(** The [for (const element of newMessages)] loop. *)
Fixpoint processNew (now : Z) (elements : list Handle)
  : list ListenEvent * Completion unit :=
  match elements with
  | [] => ([], Resolved tt)
  | element :: rest =>
      match extractMessageData Date_parse toISOString element now 0 with
      | Some messageData =>
          if negb (String.eqb (sender messageData) "me")
          then
            let continue (stored : list ListenEvent) :=
              let (events, outcome) := processNew now rest in
              ((stored ++ Unmarked :: events)%list, outcome) in
            if conversationId
            then match appendMessage messageData with
                 | Resolved _ => continue [Appended messageData]
                 | Thrown message => ([], Thrown message)
                 end
            else continue []
          else processNew now rest
      | None => processNew now rest
      end
  end.

(** The [try] block of one polling cycle. *)
Definition pollOnce (page : Page) (now : Z) (r : Q)
  : list ListenEvent * Completion unit :=
  match page ("[data-new-message=" ++ quote ++ "true" ++ quote ++ "]") with
  | Thrown message => ([], Thrown message)
  | Resolved newMessages =>
      match processNew now newMessages with
      | (events, Thrown message) => (events, Thrown message)
      | (events, Resolved _) =>
          match stealthRandomDelay 1000 2000 r with
          | Resolved ms => ((events ++ [Slept ms])%list, Resolved tt)
          | Thrown message => (events, Thrown message)
          end
      end
  end.

(** The [while (isListeningCallback())] loop, observed for at most [fuel]
    cycles.  [listening k] is the answer of the callback at the start of
    cycle [k]; [pages k] and [clock k] are the page and the clock during
    cycle [k]; [rnd k] and [rndBackoff k] are the values of
    [Math.random()] for the delay of the cycle and for its back-off. *)
Fixpoint listenLoop (fuel cycle : nat) (listening : nat -> bool)
         (pages : nat -> Page) (clock : nat -> Z) (rnd rndBackoff : nat -> Q)
  : list ListenEvent * ListenOutcome :=
  match fuel with
  | O => ([], StillListening)
  | S fuel' =>
      if listening cycle
      then
        let next (done : list ListenEvent) :=
          let (events, outcome) :=
            listenLoop fuel' (S cycle) listening pages clock rnd rndBackoff in
          ((Consulted cycle true :: done ++ events)%list, outcome) in
        match pollOnce (pages cycle) (clock cycle) (rnd cycle) with
        | (events, Resolved _) => next events
        | (events, Thrown message) =>
            let logged := (events ++ [LoggedError "Error in live listener:" message])%list in
            match stealthRandomDelay 5000 10000 (rndBackoff cycle) with
            | Resolved ms => next (logged ++ [Slept ms])%list
            | Thrown message' => (Consulted cycle true :: logged, Failed message')
            end
        end
      else ([Consulted cycle false], Cancelled)
  end.

(** [startLiveListener]: [observerError] is the error of the
    [page.evaluate] that installs the observer, if it rejects. *)
Definition startLiveListener (fuel : nat) (observerError : option string)
           (listening : nat -> bool) (pages : nat -> Page) (clock : nat -> Z)
           (rnd rndBackoff : nat -> Q)
  : list ListenEvent * ListenOutcome :=
  match observerError with
  | Some message =>
      ([LoggedError "Failed to start live listener:" message; Disconnected],
       Failed message)
  | None =>
      match listenLoop fuel 0 listening pages clock rnd rndBackoff with
      | (events, Failed message) =>
          ((events ++ [LoggedError "Failed to start live listener:" message; Disconnected])%list,
           Failed message)
      | (events, outcome) => ((events ++ [Disconnected])%list, outcome)
      end
  end.

End Listener.

(** Number of polling cycles begun in a run. *)
Fixpoint cyclesBegun (events : list ListenEvent) : nat :=
  match events with
  | [] => 0
  | Consulted _ true :: rest => S (cyclesBegun rest)
  | _ :: rest => cyclesBegun rest
  end.

Fixpoint hasSlept (events : list ListenEvent) : bool :=
  match events with
  | [] => false
  | Slept _ :: _ => true
  | _ :: rest => hasSlept rest
  end.

End Chat.

(** ** A concrete engine for the examples: ISO-8601 UTC dates *)
Module Host.
Import JS.

(** Civil date [(year, month, day)] of a day number counted from
    1970-01-01. *)
Definition civil (day : Z) : Z * Z * Z :=
  let z := day + 719468 in
  let era := z / 146097 in
  let doe := z - era * 146097 in
  let yoe := (doe - doe / 1460 + doe / 36524 - doe / 146096) / 365 in
  let doy := doe - (365 * yoe + yoe / 4 - yoe / 100) in
  let mp := (5 * doy + 2) / 153 in
  let d := doy - (153 * mp + 2) / 5 + 1 in
  let m := if mp <? 10 then mp + 3 else mp - 9 in
  (if m <=? 2 then yoe + era * 400 + 1 else yoe + era * 400, m, d).

(** Day number of a civil date. *)
Definition dayNumber (y m d : Z) : Z :=
  let y' := if m <=? 2 then y - 1 else y in
  let era := y' / 400 in
  let yoe := y' - era * 400 in
  let doy := (153 * (if 2 <? m then m - 3 else m + 9) + 2) / 5 + d - 1 in
  let doe := yoe * 365 + yoe / 4 - yoe / 100 + doy in
  era * 146097 + doe - 719468.

(** [n] written with at least [width] digits. *)
Fixpoint zeros (n : nat) : string :=
  match n with O => EmptyString | S k => String "0" (zeros k) end.

Definition padded (width : nat) (n : Z) : string :=
  let digits := showZ n in
  zeros (width - String.length digits) ++ digits.

(** [new Date(t).toISOString()] for the years 0000 to 9999. *)
Definition toISOString (t : Z) : string :=
  let day := t / 86400000 in
  let ms := t mod 86400000 in
  let '(y, m, d) := civil day in
  padded 4 y ++ "-" ++ padded 2 m ++ "-" ++ padded 2 d ++ "T"
  ++ padded 2 (ms / 3600000) ++ ":" ++ padded 2 (ms / 60000 mod 60) ++ ":"
  ++ padded 2 (ms / 1000 mod 60) ++ "." ++ padded 3 (ms mod 1000) ++ "Z".

Definition digit (c : ascii) : option Z :=
  let n := Z.of_nat (nat_of_ascii c) in
  if (48 <=? n) && (n <=? 57) then Some (n - 48) else None.

(** Reads [shape], in which [#] stands for a digit, from the front of [s];
    gives the digits read, as one number per run of [#]. *)
Fixpoint scan (shape s : string) (current : option Z) : option (list Z) :=
  match shape, s with
  | EmptyString, EmptyString =>
      Some (match current with Some n => [n] | None => [] end)
  | String p shape', String c s' =>
      if Ascii.eqb p "#"
      then match digit c with
           | Some v => scan shape' s' (Some (match current with
                                             | Some n => 10 * n + v
                                             | None => v
                                             end))
           | None => None
           end
      else if Ascii.eqb p c
      then match scan shape' s' None with
           | Some fields => Some (match current with
                                  | Some n => n :: fields
                                  | None => fields
                                  end)
           | None => None
           end
      else None
  | _, _ => None
  end.

(** [new Date(s).getTime()] on the strings [YYYY-MM-DDTHH:mm:ss.sssZ];
    every other string is an Invalid Date for this engine. *)
Definition Date_parse (s : string) : option Z :=
  match scan "####-##-##T##:##:##.###Z" s None with
  | Some [y; m; d; hh; mm; ss; ms] =>
      if (1 <=? m) && (m <=? 12) && (1 <=? d) && (d <=? 31)
         && (hh <=? 23) && (mm <=? 59) && (ss <=? 59)
      then Some (dayNumber y m d * 86400000 + hh * 3600000 + mm * 60000 + ss * 1000 + ms)
      else None
  | _ => None
  end.

End Host.

(** ** Concrete runs used by the examples *)
Module Scenario.
Import JS.

(** The draws of a typing run with one correction: the seventh value of
    [Math.random()], which is the mistake test of the second character, is
    0.01; all others are 0.5. *)
Definition oneCorrection (n : nat) : Q := if (n =? 6)%nat then 1 # 100 else 1 # 2.

Definition halves (n : nat) : Q := 1 # 2.

(** A login page on which the form is found and submitted, with the given
    outcome of the race and the given error markup. *)
Definition loginPage (r : Auth.Race) (url : string) (markup : option string)
  : Auth.LoginPage :=
  Auth.mkLoginPage None false "https://internshala.com/login/student" 0 None true
                   (Some true) r url markup markup.

(** Two attempts end on the error element, the third reaches the dashboard. *)
Definition thirdTimeLucky (n : nat) : Auth.LoginPage :=
  if (n =? 3)%nat
  then loginPage Auth.SuccessSignal "https://internshala.com/student/dashboard" None
  else loginPage Auth.ErrorSignal "https://internshala.com/login/student"
                 (Some "Invalid email or password").

(** Every attempt ends on error markup that says the account is on hold. *)
Definition onHold (n : nat) : Auth.LoginPage :=
  loginPage Auth.ErrorSignal "https://internshala.com/login/student"
            (Some "Your account has been put on hold").

(** The dashboard of an account on hold, reached with stored cookies. *)
Definition heldDashboard : Bot.Dashboard :=
  Bot.mkDashboard false (Some "Your account has been put on hold") true.

(** A message element of class [message] with the given text. *)
Definition plain (t : string) : Chat.Handle :=
  Chat.mkHandle ["message"] [] [Chat.TextNode t] [] false.

(** A page on which only the selector [.message] matches, the given
    elements. *)
Definition onlyMessage (elements : list Chat.Handle) : Chat.Page :=
  fun selector =>
    if String.eqb selector ".message" then Resolved elements else Resolved [].

(** A conversation that shows 5 messages and 5 more after each of the first
    three scrolls, then stays at 20. *)
Definition stallsAfterThree (k : nat) : Chat.Page :=
  onlyMessage (repeat (plain "hello") (5 * Nat.min (S k) 4)).








(** A message with the given text and [data-time]. *)
Definition timed (t stamp : string) : Chat.Handle :=
  Chat.mkHandle ["message"] [("data-time", stamp)] [Chat.TextNode t] [] false.

(** Three copies of one text, 600 ms apart, listed latest first, another
    text, and the first text again five seconds later. *)
Definition echoes : Chat.Page :=
  onlyMessage [ timed "ok" "2024-01-15T09:00:01.200Z";
                timed "ok" "2024-01-15T09:00:00.600Z";
                timed "fine" "2024-01-15T09:00:00.300Z";
                timed "ok" "2024-01-15T09:00:00.000Z";
                timed "ok" "2024-01-15T09:00:05.000Z" ].

(** A conversation page on which no element is flagged as new. *)
Definition quiet (k : nat) : Chat.Page := fun _ => Resolved [].

(** A watch whose first polling cycle finds the page closed; the page is
    quiet from the second cycle on. *)
Definition closedOnce (k : nat) : Chat.Page :=
  fun _ => if (k =? 0)%nat then Thrown "Target closed" else Resolved [].

(** 2024-01-15T10:30:00.000Z at every clock read. *)
Definition halfPastTen (k : nat) : Z := 1705314600000.

Definition stored (m : Chat.Message) : Completion unit := Resolved tt.

Definition always (k : nat) : bool := true.

End Scenario.

(** ** The storage manager: cookies and chat history on disk *)
Module Storage.
Import JS.

(** What [fs.readFile] followed by [JSON.parse] finds: no file (ENOENT), a
    file that cannot be read or parsed, or a document.  [JSON.stringify]
    followed by [JSON.parse] gives back the document written. *)
Inductive File (A : Type) : Type :=
| Missing
| Unreadable
| Holds (doc : A).
Arguments Missing {A}.
Arguments Unreadable {A}.
Arguments Holds {A} doc.

(** [await fs.writeFile(file, JSON.stringify(doc, null, 2))]: a write that
    fails throws and leaves the file as it was. *)
Definition writeFile {A} (writable : bool) (doc : A) (file : File A) : File A :=
  if writable then Holds doc else file.

Section Disk.

Variable Cookie : Type.
Variable Date_parse : string -> option Z.
Variable toISOString : Z -> string.

(** *** Cookies *)
Record CookieData := mkCookieData {
  cookies   : list Cookie;
  timestamp : string;
  domain    : string
}.

(** [const maxAge = 7 * 24 * 60 * 60 * 1000] *)
Definition maxAge : Z := 7 * 24 * 60 * 60 * 1000.

(** [saveCookies(cookies)] at the instant [now]; its [catch] logs. *)
Definition saveCookies (now : Z) (cs : list Cookie) (writable : bool)
           (file : File CookieData) : File CookieData :=
  writeFile writable (mkCookieData cs (toISOString now) "internshala.com") file.

(** [loadCookies()] at the instant [now].  [cookieAge] is [NaN] when the
    timestamp is not a date, and [NaN > maxAge] is false. *)
Definition loadCookies (now : Z) (file : File CookieData) : option (list Cookie) :=
  match file with
  | Holds cookieData =>
      let tooOld :=
        match Date_parse (timestamp cookieData) with
        | Some saved => maxAge <? now - saved
        | None => false
        end in
      if tooOld then None else Some (cookies cookieData)
  | Missing | Unreadable => None
  end.

(** *** Chat history *)
Record Conversation := mkConversation {
  messages     : list Chat.Message;
  lastUpdated  : option string;
  messageCount : nat
}.

(** The history document: an object keyed by conversation identifier, in
    the order of [Object.entries] (identifiers are not array indices). *)
Definition HistoryData : Type := list (string * Conversation).

(** [historyData[key]] *)
Fixpoint lookup (historyData : HistoryData) (key : string) : option Conversation :=
  match historyData with
  | [] => None
  | (k, conversation) :: rest =>
      if String.eqb k key then Some conversation else lookup rest key
  end.

(** [historyData[key] = conversation]: an existing key keeps its place, a
    new one goes last. *)
Fixpoint assign (historyData : HistoryData) (key : string) (conversation : Conversation)
  : HistoryData :=
  match historyData with
  | [] => [(key, conversation)]
  | (k, c) :: rest =>
      if String.eqb k key then (key, conversation) :: rest
      else (k, c) :: assign rest key conversation
  end.

(** [{ messages: [], lastUpdated: null, messageCount: 0 }] *)
Definition noConversation : Conversation := mkConversation [] None 0.

(** [loadChatHistory()] without an identifier: the whole document, [{}] when
    the file is missing or unreadable. *)
Definition loadAll (file : File HistoryData) : HistoryData :=
  match file with
  | Holds historyData => historyData
  | Missing | Unreadable => []
  end.

(** [loadChatHistory(conversationId)] with a non-empty identifier. *)
Definition loadChatHistory (conversationId : string) (file : File HistoryData)
  : Conversation :=
  match lookup (loadAll file) conversationId with
  | Some conversation => conversation
  | None => noConversation
  end.

(** [saveChatHistory(conversationId, messages)] at the instant [now], as far
    as the history file goes (the CSV export that follows writes another
    file and its errors are caught). *)
Definition saveChatHistory (now : Z) (conversationId : string)
           (msgs : list Chat.Message) (writable : bool) (file : File HistoryData)
  : File HistoryData :=
  writeFile writable
            (assign (loadAll file) conversationId
                    (mkConversation msgs (Some (toISOString now)) (List.length msgs)))
            file.

(** The predicate given to [find] by [appendMessage]: same text, and time
    values less than 5000 ms apart. *)
Definition alreadyStored (message m : Chat.Message) : bool :=
  String.eqb (Chat.text m) (Chat.text message)
  && match Chat.timeDiff Date_parse m message with
     | Some d => Z.abs d <? 5000
     | None => false
     end.

(** [appendMessage(conversationId, message)] at the instant [now]. *)
Definition appendMessage (now : Z) (conversationId : string) (message : Chat.Message)
           (writable : bool) (file : File HistoryData) : File HistoryData :=
  let historyData := loadAll file in
  let conversation :=
    match lookup historyData conversationId with
    | Some c => c
    | None => noConversation
    end in
  match find (alreadyStored message) (messages conversation) with
  | Some existingMessage => file
  | None =>
      let msgs := (messages conversation ++ [message])%list in
      writeFile writable
                (assign historyData conversationId
                        (mkConversation msgs (Some (toISOString now)) (List.length msgs)))
                file
  end.

(** The chat-history part of [getStats()]: the [reduce] over
    [messageCount]. *)
Definition totalMessages (file : File HistoryData) : nat :=
  fold_left (fun total conv => (total + messageCount (snd conv))%nat) (loadAll file) 0%nat.

(** [conversation.lastUpdated && new Date(conversation.lastUpdated) < cutoffDate];
    a comparison with an Invalid Date is false. *)
Definition stale (cutoff : Z) (conversation : Conversation) : bool :=
  match lastUpdated conversation with
  | Some updated =>
      truthy updated
      && match Date_parse updated with
         | Some t => t <? cutoff
         | None => false
         end
  | None => false
  end.

(** [cleanup(maxAge = 30)] at the instant [now], as far as the history file
    goes; [maxAge] is a whole number of days.  A write that fails throws
    into the [catch], which logs. *)
Definition cleanup (now maxAge : Z) (writable : bool) (file : File HistoryData)
  : File HistoryData :=
  let maxAgeMs := maxAge * 24 * 60 * 60 * 1000 in
  let cutoffDate := now - maxAgeMs in
  let historyData := loadAll file in
  let cleanedConversations :=
    List.length (filter (fun kc => stale cutoffDate (snd kc)) historyData) in
  if (0 <? cleanedConversations)%nat
  then writeFile writable
                 (filter (fun kc => negb (stale cutoffDate (snd kc))) historyData)
                 file
  else file.

End Disk.

Arguments cookies {Cookie} _.
Arguments timestamp {Cookie} _.
Arguments domain {Cookie} _.
Arguments mkCookieData {Cookie} _ _ _.

End Storage.

(** ** [src/bot.js] with its storage: session reuse and the listening flag *)
Module Session.
Import JS.

Section Login.

Variable Cookie : Type.
Variable Date_parse : string -> option Z.
Variable toISOString : Z -> string.

(** [cookies && cookies.length > 0] *)
Definition usable (loaded : option (list Cookie)) : bool :=
  match loaded with
  | Some cs => (0 <? List.length cs)%nat
  | None => false
  end.

(** [login()] with the cookie file: [now] is the instant at which the
    cookies are loaded, [after] the instant at which those of a fresh login
    are saved, [fresh] the cookies of the browser context after that login.
    The result is the run of [performLogin], the outcome, and the cookie
    file left behind. *)
Definition login (now after : Z) (fresh : list Cookie) (writable : bool)
           (file : Storage.File (Storage.CookieData Cookie))
           (d : Bot.Dashboard) (pages : nat -> Auth.LoginPage) (rnd : nat -> Q)
  : list Auth.Event * Completion unit * Storage.File (Storage.CookieData Cookie) :=
  if usable (Storage.loadCookies Cookie Date_parse now file) && Bot.isLoggedIn d
  then ([], Resolved tt, file)
  else
    match Auth.performLogin pages rnd with
    | (events, Resolved _) =>
        (events, Resolved tt,
         Storage.saveCookies Cookie toISOString after fresh writable file)
    | (events, Thrown message) => (events, Thrown message, file)
    end.

End Login.

(** The fields of the bot that [startListening] and [stopListening] use. *)
Record BotState := mkBotState {
  isListening         : bool;
  currentConversation : option string
}.

(** [if (conversationId && this.currentConversation !== conversationId)
      await this.navigateToChat(conversationId)] *)
Definition navigateIfNeeded (conversationId : option string) (st : BotState) : BotState :=
  match conversationId with
  | Some wanted =>
      if truthy wanted
         && negb (match currentConversation st with
                  | Some current => String.eqb current wanted
                  | None => false
                  end)
      then mkBotState (isListening st) (Some wanted)
      else st
  | None => st
  end.

(** [startListening(conversationId)]: [watch] is the run of
    [startLiveListener] on the current conversation, which is started only
    when the bot was not listening.  The result is the state of the bot when
    the call returns or throws, and the run of the watch if one was made. *)
Definition startListening (conversationId : option string) (st : BotState)
           (watch : bool -> list Chat.ListenEvent * Chat.ListenOutcome)
  : BotState * option (list Chat.ListenEvent * Chat.ListenOutcome) :=
  let st1 := navigateIfNeeded conversationId st in
  if isListening st1 then (st1, None)
  else
    let st2 := mkBotState true (currentConversation st1) in
    (st2, Some (watch (match currentConversation st2 with
                       | Some current => truthy current
                       | None => false
                       end))).

(** [stopListening()] *)
Definition stopListening (st : BotState) : BotState :=
  mkBotState false (currentConversation st).

End Session.

(** ** [src/stealth.js] : the pointer *)
Module Pointer.
Import JS.

(** [element.boundingBox()] *)
Record Box := mkBox {
  x      : Q;
  y      : Q;
  width  : Q;
  height : Q
}.

(** Calls of [page.mouse]. *)
Inductive Action :=
| Move (px py : Q)
| Click (px py : Q).

(** The world of the pointer code: the world of the delays and draws, the
    position kept in [window.mouseX] and [window.mouseY] ([0] when they are
    not set), and the mouse calls made. *)
Record World := mkWorld {
  sim     : Stealth.World;
  stored  : Q * Q;
  actions : list Action
}.

Definition Sim (A : Type) : Type := World -> A * World.

Definition ret {A} (a : A) : Sim A := fun w => (a, w).

Definition bind {A B} (m : Sim A) (k : A -> Sim B) : Sim B :=
  fun w => let (a, w') := m w in k a w'.

Notation "v <- m ;; k" := (bind m (fun v => k))
  (at level 61, m at next level, right associativity).
Notation "m ;; k" := (bind m (fun _ => k))
  (at level 61, right associativity).

(** A delay or a draw, run in the world of the pointer. *)
Definition lift {A} (m : Stealth.Sim A) : Sim A :=
  fun w => let (a, s) := m (sim w) in (a, mkWorld s (stored w) (actions w)).

Definition act (a : Action) : Sim unit :=
  fun w => (tt, mkWorld (sim w) (stored w) (actions w ++ [a])%list).

Definition remember (px py : Q) : Sim unit :=
  fun w => (tt, mkWorld (sim w) (px, py) (actions w)).

Definition recall : Sim (Q * Q) := fun w => (stored w, w).

(** [(Math.random() - 0.5) * 2] *)
Definition jitter (r : Q) : Q := ((r - (1 # 2)) * 2)%Q.

(** The [for (let i = 0; i < steps; i++)] loop of [humanMouseMove];
    [remaining] is [steps - i]. *)
Fixpoint moveSteps (remaining i : nat) (startX startY deltaX deltaY : Q) : Sim unit :=
  match remaining with
  | O => ret tt
  | S remaining' =>
      rx <- lift Stealth.mathRandom ;;
      ry <- lift Stealth.mathRandom ;;
      act (Move (startX + deltaX * inject_Z (Z.of_nat i) + jitter rx)%Q
                (startY + deltaY * inject_Z (Z.of_nat i) + jitter ry)%Q) ;;
      lift (Stealth.randomDelay 10 30) ;;
      moveSteps remaining' (S i) startX startY deltaX deltaY
  end.

(** [humanMouseMove(page, targetX, targetY)] *)
Definition humanMouseMove (targetX targetY : Q) : Sim unit :=
  currentPosition <- recall ;;
  r <- lift Stealth.mathRandom ;;
  let steps := floorMul r 10 + 5 in
  let deltaX := ((targetX - fst currentPosition) / inject_Z steps)%Q in
  let deltaY := ((targetY - snd currentPosition) / inject_Z steps)%Q in
  moveSteps (Z.to_nat steps) 0 (fst currentPosition) (snd currentPosition)
            deltaX deltaY ;;
  act (Move targetX targetY) ;;
  remember targetX targetY.

(** [humanClick(page, element)]; [box] is [null] for an element that is not
    visible. *)
Definition humanClick (box : option Box) : Sim (Completion unit) :=
  match box with
  | None => ret (Thrown "Element not visible for clicking")
  | Some b =>
      rx <- lift Stealth.mathRandom ;;
      ry <- lift Stealth.mathRandom ;;
      let px := (x b + rx * width b)%Q in
      let py := (y b + ry * height b)%Q in
      humanMouseMove px py ;;
      lift (Stealth.randomDelay 50 150) ;;
      jx <- lift Stealth.mathRandom ;;
      jy <- lift Stealth.mathRandom ;;
      act (Click (px + jitter jx)%Q (py + jitter jy)%Q) ;;
      lift (Stealth.randomDelay 100 200) ;;
      ret (Resolved tt)
  end.

(** [humanScroll(page, direction, distance)]: the wheel deltas sent, for a
    distance in whole pixels.  [scrollSteps = Math.floor(distance / 50)];
    with no step the loop does not run. *)
Definition scrollSteps (distance : Z) : Z := distance / 50.

Definition wheelDeltas (down : bool) (distance : Z) : list Q :=
  let stepDistance := (inject_Z distance / inject_Z (scrollSteps distance))%Q in
  repeat (if down then stepDistance else (- stepDistance)%Q)
         (Z.to_nat (scrollSteps distance)).

End Pointer.

(** ** The captcha manager: polling the solving service *)
Module Captcha.
Import JS.

(** Fields set by the constructor of [CaptchaManager]. *)
Definition pollInterval : Z := 5000.
Definition maxWaitTime : Z := 120000.

(** What one [getTaskResult] request gives: a reply without error whose
    status is [ready] (with the two solution fields), [processing] or
    something else; a reply with an error; or a request that throws.  A
    [ready] reply without a solution object counts as a request that
    throws: reading its field throws inside the same [try]. *)
Inductive Reply :=
| Ready (text gRecaptchaResponse : option string)
| Processing
| OtherStatus
| ApiError
| RequestFailed.

(** How a polling ends: with the value returned ([None] for [null] and
    [undefined]), or still polling after the cycles observed. *)
Inductive Polled :=
| Returned (solution : option string)
| StillPolling.

(** The [while (Date.now() - startTime < this.maxWaitTime)] loop, observed
    for at most [fuel] requests.  [elapsed] is [Date.now() - startTime] at
    the test; request [k] gets the reply [replies k] after [latency k]
    milliseconds; a [setTimeout] of [pollInterval] lasts that long.  The
    result tells how the polling ended and how many requests were made. *)
Fixpoint pollFrom (fuel k : nat) (elapsed : Z)
         (replies : nat -> Reply) (latency : nat -> Z) : Polled * nat :=
  if elapsed <? maxWaitTime
  then match fuel with
       | O => (StillPolling, k)
       | S fuel' =>
           let elapsed' := elapsed + latency k in
           match replies k with
           | Ready text token =>
               (Returned (match orElse text token with
                          | Some s => Some s
                          | None => None
                          end), S k)
           | Processing | RequestFailed =>
               pollFrom fuel' (S k) (elapsed' + pollInterval) replies latency
           | OtherStatus | ApiError => (Returned None, S k)
           end
       end
  else (Returned None, k).

(** [pollForResult(taskId)], observed for 24 requests. *)
Definition pollForResult (replies : nat -> Reply) (latency : nat -> Z) : Polled * nat :=
  pollFrom 24 0 0 replies latency.

(** [solveImageCaptcha(page, captchaElement)]: [apiKey] tells whether a key
    is configured, [screenshot] whether the screenshot of the element
    succeeds, [taskId] is what [submitImageTask] returns.  The result is the
    value returned and the number of [getTaskResult] requests. *)
Definition solveImageCaptcha (apiKey screenshot : bool) (taskId : option string)
           (replies : nat -> Reply) (latency : nat -> Z) : option string * nat :=
  if negb apiKey then (None, 0%nat)
  else if negb screenshot then (None, 0%nat)
  else match taskId with
       | None => (None, 0%nat)
       | Some _ =>
           match pollForResult replies latency with
           | (Returned (Some solution), requests) =>
               (if truthy solution then Some solution else None, requests)
           | (_, requests) => (None, requests)
           end
       end.

End Captcha.

(** ** [src/mcp.js] : the tool-call surface *)
Module Mcp.
Import JS.







(** [array.slice(start, end)]; [end_] is [None] when the argument is left
    out. *)
Definition slice {A} (array : list A) (start : Z) (end_ : option Z) : list A :=
  let len := Z.of_nat (List.length array) in
  let relative (i : Z) := if i <? 0 then Z.max (len + i) 0 else Z.min i len in
  let from := relative start in
  let final := match end_ with Some e => relative e | None => len end in
  firstn (Z.to_nat (Z.max (final - from) 0)) (skipn (Z.to_nat from) array).

(** What a tool returns: [{ success: true, data }] or
    [{ success: false, error }]. *)
Inductive ToolResult (A : Type) : Type :=
| Success (data : A)
| Failure (error : string).
Arguments Success {A} data.
Arguments Failure {A} error.

(** [fetchHistory(params)]: [limit] is [params.limit] ([None] when absent),
    [history] the outcome of [bot.fetchHistory].  The data are the messages
    and [total_count]. *)
Definition fetchHistory (limit : option Z) (history : Completion (list Chat.Message))
  : ToolResult (list Chat.Message * nat) :=
  match history with
  | Thrown message => Failure message
  | Resolved h =>
      let limitedHistory :=
        match limit with
        | Some n => if n =? 0 then h else slice h (- n) None
        | None => h
        end in
      Success (limitedHistory, List.length limitedHistory)
  end.


Section Search.

Variable Date_parse : string -> option Z.








End Search.

End Mcp.

(** ** [ChatManager.fetchChatHistory] and [InternshalaBot.fetchHistory] *)
Module ChatFlow.
Import JS.

(** [chatSelectors], the candidates for the chat container. *)
Definition chatSelectors : list string :=
  [ ".message_container"; ".chat_element_container"; ".message_history_element";
    ".chat_box"; ".chat_message_flex"; ".message"; ".message_inner";
    ".chat-container"; ".messages-container"; ".conversation-container";
    ".chat-messages"; ".message-list"; ".chat-content"; ".conversation-messages";
    "#chat-messages"; ".chat-window"; ".messages-wrapper" ].

(** What the waits of [fetchChatHistory] find: whether
    [page.waitForSelector(selector, { timeout: 2000 })] resolves for a
    candidate, whether the wait for [body] resolves, and the value of
    [hasMessages] computed in the page. *)
Record Arrival := mkArrival {
  appears     : string -> bool;
  bodyAppears : bool;
  hasMessages : bool
}.

(** The message of the error thrown by the [catch] of the fallback. *)
Definition notFound : string :=
  "Could not find chat container. Available selectors tried: "
  ++ String.concat ", " chatSelectors.

Section Fetch.

Variable Date_parse : string -> option Z.
Variable toISOString : Z -> string.

(** [fetchChatHistory(page, stealth)]: [pages k] is the page at the [k]-th
    count read by [scrollToLoadHistory], [final] the page from which the
    messages are extracted.  The result is the number of scrolls made and
    the outcome. *)
Definition fetchChatHistory (a : Arrival) (pages : nat -> Chat.Page) (final : Chat.Page)
           (clock : nat -> Z) : nat * Completion (list Chat.Message) :=
  let proceed :=
    (fst (Chat.scrollToLoadHistory pages),
     Resolved (Chat.extractMessages Date_parse toISOString final clock)) in
  match find (appears a) chatSelectors with
  | Some chatContainer => proceed
  | None =>
      if bodyAppears a
      then if negb (hasMessages a) then (0%nat, Thrown notFound) else proceed
      else (0%nat, Thrown notFound)
  end.

(** [InternshalaBot.fetchHistory(conversationId)] at the instant [now]:
    [navigation] is the outcome of [navigateToChat] if it is called.  The
    result is the state of the bot, the outcome, and the history file left
    behind. *)
Definition fetchHistory (now : Z) (conversationId : string) (st : Session.BotState)
           (navigation : Completion unit)
           (a : Arrival) (pages : nat -> Chat.Page) (final : Chat.Page) (clock : nat -> Z)
           (writable : bool) (file : Storage.File Storage.HistoryData)
  : Session.BotState * Completion (list Chat.Message) * Storage.File Storage.HistoryData :=
  let fetch (st' : Session.BotState) :=
    match snd (fetchChatHistory a pages final clock) with
    | Resolved history =>
        (st', Resolved history,
         Storage.saveChatHistory toISOString now conversationId history writable file)
    | Thrown message => (st', Thrown message, file)
    end in
  if match Session.currentConversation st with
     | Some current => String.eqb current conversationId
     | None => false
     end
  then fetch st
  else match navigation with
       | Resolved _ =>
           fetch (Session.mkBotState (Session.isListening st) (Some conversationId))
       | Thrown message => (st, Thrown message, file)
       end.

End Fetch.

End ChatFlow.

(** ** [src/csv-exporter.js] : the fields of a CSV row *)
Module Csv.
Import JS.

Definition doubleQuote : ascii := ascii_of_nat 34.
Definition comma : ascii := ascii_of_nat 44.
Definition lineFeed : ascii := ascii_of_nat 10.
Definition carriageReturn : ascii := ascii_of_nat 13.
Definition tab : ascii := ascii_of_nat 9.
Definition space : ascii := ascii_of_nat 32.

(** The string of one character. *)
Definition char (c : ascii) : string := String c EmptyString.

(** [s.replace(/c/g, to)] for a pattern of one character [c]. *)
Fixpoint replaceAll (c : ascii) (to : string) (s : string) : string :=
  match s with
  | EmptyString => EmptyString
  | String d s' => (if Ascii.eqb d c then to else char d) ++ replaceAll c to s'
  end.

(** [cleanTextForCSV(text)] *)
Definition cleanTextForCSV (text : string) : string :=
  trim (replaceAll tab (char space)
          (replaceAll carriageReturn EmptyString
             (replaceAll lineFeed (char space) text))).

(** [escapeCSV(value)] on a string. *)
Definition escapeCSV (value : string) : string :=
  if includes value (char comma) || includes value (char doubleQuote)
     || includes value (char lineFeed)
  then char doubleQuote
       ++ replaceAll doubleQuote (char doubleQuote ++ char doubleQuote) value
       ++ char doubleQuote
  else value.

End Csv.

(** ** Concrete stores, pointers and replies used by the examples *)
Module Fixture.
Import JS.

(** 2024-01-15T10:30:00.000Z *)
Definition savedAt : Z := 1705314600000.

Definition greeting : Chat.Message :=
  Chat.mkMessage "msg_1" "Hello" "other" "2024-01-15T09:00:00.000Z" "received" "message".

(** A message whose timestamp is not a date. *)
Definition undated : Chat.Message :=
  Chat.mkMessage "msg_2" "Please send your resume before Friday" "other" "just now"
                 "received" "message".

(** A history file with one conversation of one message. *)
Definition shelf : Storage.File Storage.HistoryData :=
  Storage.Holds [("c1", Storage.mkConversation [greeting] None 1)].

(** A pointer that has not moved, every [Math.random()] being 0.5. *)
Definition atRest : Pointer.World :=
  Pointer.mkWorld (Stealth.fresh Scenario.halves EmptyString) (0, 0)%Q [].

Definition button : Pointer.Box := Pointer.mkBox 100 200 80 24.

(** A captcha task that is ready at the third request. *)
Definition readyThird (k : nat) : Captcha.Reply :=
  if (k =? 2)%nat then Captcha.Ready (Some "x7Kp") None else Captcha.Processing.

Definition prompt (k : nat) : Z := 300.

(** A chat page whose container [.chat_box] appears. *)
Definition chatOpen : ChatFlow.Arrival :=
  ChatFlow.mkArrival (fun selector => String.eqb selector ".chat_box") true true.


Definition idle : Session.BotState := Session.mkBotState false None.

(** A cookie file whose timestamp is not a date. *)
Definition undatedCookies : Storage.CookieData string :=
  Storage.mkCookieData ["sid"] "yesterday" "internshala.com".

(** A dashboard that shows the student logged in. *)
Definition loggedIn : Bot.Dashboard := Bot.mkDashboard false None true.

(** The login page after a submission that reached the dashboard. *)
Definition arrived : Auth.LoginPage :=
  Scenario.loginPage Auth.SuccessSignal "https://internshala.com/student/dashboard" None.


End Fixture.

(* ================================================================== *)
(** * Part II : properties                                             *)
(* ================================================================== *)

(** ** Human-paced typing *)
Section HumanTyping.
Import JS Stealth.

Example includes_hold :
  JS.includes "Your account has been put on hold." "put on hold" = true.
Proof. reflexivity. Qed.

Example trim_both : JS.trim "  hi there 	" = "hi there".
Proof. reflexivity. Qed.

Lemma typedChars_app (ks ks' : list Key) :
  typedChars (ks ++ ks') = typedChars ks ++ typedChars ks'.
Proof.
  induction ks as [|[|c] ks IH]; simpl; auto.
  now rewrite IH.
Qed.

Lemma append_assoc (a b c : string) : (a ++ b) ++ c = a ++ (b ++ c).
Proof. induction a as [|x a IH]; simpl; [reflexivity | now rewrite IH]. Qed.

Lemma append_empty_r (a : string) : a ++ "" = a.
Proof. induction a as [|x a IH]; simpl; [reflexivity | now rewrite IH]. Qed.

(** One step of the monad at a time. *)
Ltac run_sim :=
  unfold randomDelay, bind, mathRandom, sleep, send, ret; cbn [fst snd
    draws cursor field elapsed keys applyKey].

(** Whatever the random draws, the [type] calls of [humanType] are the
    characters of [text], in order and once each. *)
Lemma typeFrom_keys (text : string) :
  forall i w,
    typedChars (keys (snd (typeFrom i text w))) = typedChars (keys w) ++ text.
Proof.
  induction text as [|c rest IH]; intros i w.
  - simpl. now rewrite append_empty_r.
  - cbn [typeFrom]. run_sim.
    destruct (Qltb (draws w (S (cursor w))) (2 # 100) && (0 <? i)%nat);
      run_sim;
      match goal with
      | |- context [if Qltb ?q (1 # 10) then _ else _] => destruct (Qltb q (1 # 10))
      end; run_sim; rewrite IH; cbn [keys];
      rewrite !typedChars_app; simpl; rewrite ?append_empty_r, ?append_assoc;
      reflexivity.
Qed.

Lemma typeFrom_draws (text : string) :
  forall i w, draws (snd (typeFrom i text w)) = draws w.
Proof.
  induction text as [|c rest IH]; intros i w.
  - reflexivity.
  - cbn [typeFrom]. run_sim.
    destruct (Qltb (draws w (S (cursor w))) (2 # 100) && (0 <? i)%nat);
      run_sim;
      match goal with
      | |- context [if Qltb ?q (1 # 10) then _ else _] => destruct (Qltb q (1 # 10))
      end; run_sim; rewrite IH; reflexivity.
Qed.

(** When no draw falls under 0.02 the input ends up holding the text. *)
Lemma typeFrom_without_correction (text : string) :
  forall i w,
    (forall n, Qltb (draws w n) (2 # 100) = false) ->
    field (snd (typeFrom i text w)) = field w ++ text.
Proof.
  induction text as [|c rest IH]; intros i w Hno.
  - simpl. now rewrite append_empty_r.
  - cbn [typeFrom]. run_sim. rewrite Hno. cbn [andb]. run_sim.
    match goal with
    | |- context [if Qltb ?q (1 # 10) then _ else _] => destruct (Qltb q (1 # 10))
    end; run_sim; rewrite IH by (intros n; apply Hno); cbn [field];
      rewrite append_assoc; reflexivity.
Qed.

Lemma humanType_without_correction (text content : string) (rnd : nat -> Q) :
  (forall n, Qltb (rnd n) (2 # 100) = false) ->
  field (snd (humanType text (fresh rnd content))) = content ++ text.
Proof.
  intros Hno. unfold humanType, fresh. run_sim.
  rewrite typeFrom_without_correction by (intros n; apply Hno).
  reflexivity.
Qed.

(** C9.  Typing ["ab"] into an empty input when the mistake test of the
    second character succeeds: the keys sent are [a], Backspace, [b], so each
    character of the text was typed once and in order, but the Backspace
    removed the [a], which is never typed again, and the input holds ["b"],
    not the text. *)
Theorem humanType_correction_loses_char :
  let w := snd (humanType "ab" (fresh Scenario.oneCorrection "")) in
  keys w = [Char "a"; Backspace; Char "b"]
  /\ typedChars (keys w) = "ab"
  /\ field w = "b"
  /\ field w <> "ab".
Proof.
  vm_compute. repeat split; try reflexivity. discriminate.
Qed.

End HumanTyping.

(** ** Login retry *)
Section LoginRetry.
Import JS Auth.

Lemma floorMul_nonneg (r : Q) (n : Z) :
  (0 <= r)%Q -> 0 <= n -> 0 <= floorMul r n.
Proof.
  intros Hr Hn. unfold floorMul.
  change 0 with (Qfloor 0). apply Qfloor_resp_le.
  apply Qmult_le_0_compat; [exact Hr|].
  unfold Qle; simpl. lia.
Qed.

Lemma floorMul_below (r : Q) (n : Z) :
  (r < 1)%Q -> 0 < n -> floorMul r n < n.
Proof.
  intros Hr Hn. unfold floorMul.
  rewrite Zlt_Qlt. eapply Qle_lt_trans; [apply Qfloor_le|].
  setoid_replace (inject_Z n) with (1 * inject_Z n)%Q at 2 by ring.
  apply Qmult_lt_compat_r; [|exact Hr].
  unfold Qlt; simpl. lia.
Qed.

(** [randomDelay(min, max)] sleeps between [min] and [max] milliseconds. *)
Lemma delayOf_bounds (min max : Z) (r : Q) :
  (0 <= r)%Q -> (r < 1)%Q -> min <= max ->
  min <= Stealth.delayOf min max r <= max.
Proof.
  intros H0 H1 Hle. unfold Stealth.delayOf.
  pose proof (floorMul_nonneg r (max - min + 1) H0 ltac:(lia)).
  pose proof (floorMul_below r (max - min + 1) H1 ltac:(lia)).
  lia.
Qed.

Lemma delayOf_lower (min max : Z) (r : Q) :
  (0 <= r)%Q -> min <= max -> min <= Stealth.delayOf min max r.
Proof.
  intros H0 Hle. unfold Stealth.delayOf.
  pose proof (floorMul_nonneg r (max - min + 1) H0 ltac:(lia)). lia.
Qed.

Example login_third_time :
  performLogin Scenario.thirdTimeLucky (fun _ => 0%Q)
  = ([Attempt 1; Backoff 1 2000; Attempt 2; Backoff 2 4000; Attempt 3], Resolved tt).
Proof. vm_compute. reflexivity. Qed.

(** The three iterations of the loop, written out. *)
Lemma performLogin_unfold (pages : nat -> LoginPage) (rnd : nat -> Q) :
  performLogin pages rnd =
  match attemptOnce (pages 1%nat) with
  | Resolved _ => ([Attempt 1], Resolved tt)
  | Thrown _ =>
      let first := [Attempt 1; Backoff 1 (Stealth.delayOf 2000 3000 (rnd 1%nat))] in
      match attemptOnce (pages 2%nat) with
      | Resolved _ => ((first ++ [Attempt 2])%list, Resolved tt)
      | Thrown _ =>
          let second := [Attempt 2; Backoff 2 (Stealth.delayOf 4000 5000 (rnd 2%nat))] in
          match attemptOnce (pages 3%nat) with
          | Resolved _ => ((first ++ second ++ [Attempt 3])%list, Resolved tt)
          | Thrown message =>
              ((first ++ second ++ [Attempt 3])%list,
               Thrown ("Login failed after 3 attempts: " ++ message))
          end
      end
  end.
Proof.
  unfold performLogin, maxRetries. cbn [loginLoop].
  destruct (attemptOnce (pages 1%nat)); [reflexivity|].
  destruct (attemptOnce (pages 2%nat)); [reflexivity|].
  destruct (attemptOnce (pages 3%nat)); reflexivity.
Qed.

(** C7.  Whatever the attempts give, [performLogin] makes at most 3 of them;
    every back-off lasts at least [retryDelay * 2^(attempt-1)] and one follows
    each failed attempt but the third; after two failures and a success the
    login succeeds at the third attempt, having backed off for at least
    [retryDelay + 2 * retryDelay]; after three failures it throws an error
    that carries the message of the third. *)
Theorem performLogin_retry_policy (pages : nat -> LoginPage) (rnd : nat -> Q)
        (Hrnd : forall n, (0 <= rnd n)%Q) :
  let run := performLogin pages rnd in
  (attempts (fst run) <= 3)%nat
  /\ (forall k ms, In (Backoff k ms) (fst run) ->
        retryDelay * 2 ^ (Z.of_nat k - 1) <= ms)
  /\ (forall k message, (k < 3)%nat -> In (Attempt k) (fst run) ->
        attemptOnce (pages k) = Thrown message ->
        exists ms, In (Backoff k ms) (fst run))
  /\ (forall m1 m2,
        attemptOnce (pages 1%nat) = Thrown m1 ->
        attemptOnce (pages 2%nat) = Thrown m2 ->
        attemptOnce (pages 3%nat) = Resolved tt ->
        snd run = Resolved tt
        /\ attempts (fst run) = 3%nat
        /\ retryDelay + 2 * retryDelay <= totalBackoff (fst run))
  /\ (forall m1 m2 m3,
        attemptOnce (pages 1%nat) = Thrown m1 ->
        attemptOnce (pages 2%nat) = Thrown m2 ->
        attemptOnce (pages 3%nat) = Thrown m3 ->
        snd run = Thrown ("Login failed after 3 attempts: " ++ m3)).
Proof.
  intros run. subst run. rewrite performLogin_unfold.
  pose proof (delayOf_lower 2000 3000 (rnd 1%nat) (Hrnd _) ltac:(lia)) as D1.
  pose proof (delayOf_lower 4000 5000 (rnd 2%nat) (Hrnd _) ltac:(lia)) as D2.
  unfold retryDelay.
  destruct (attemptOnce (pages 1%nat)) as [[]|e1] eqn:E1;
    [|destruct (attemptOnce (pages 2%nat)) as [[]|e2] eqn:E2;
      [|destruct (attemptOnce (pages 3%nat)) as [[]|e3] eqn:E3]];
    cbn [fst snd app attempts totalBackoff];
    (split; [lia|]);
    (split; [intros k ms Hin; cbn [In] in Hin;
             repeat (destruct Hin as [Hin|Hin]; [try discriminate Hin|]);
             try contradiction; try (injection Hin as <- <-; cbn; lia)|]);
    (split; [intros k message Hk Hin Hthrown; cbn [In] in Hin;
             repeat (destruct Hin as [Hin|Hin]; [try discriminate Hin|]);
             try contradiction;
             try (injection Hin as <-; try congruence; try lia;
                  eexists; cbn [In]; eauto 6)|]);
    (split; [try (intros; congruence); intros _ _ _ _ _ ; repeat split; lia|]);
    try (intros; congruence).
Qed.

(** The policy on a run of two failures and a success. *)
Lemma performLogin_retry_policy_witness :
  snd (performLogin Scenario.thirdTimeLucky Scenario.halves) = Resolved tt
  /\ attempts (fst (performLogin Scenario.thirdTimeLucky Scenario.halves)) = 3%nat
  /\ retryDelay + 2 * retryDelay
     <= totalBackoff (fst (performLogin Scenario.thirdTimeLucky Scenario.halves)).
Proof.
  assert (Hrnd : forall n, (0 <= Scenario.halves n)%Q)
    by (intros n; unfold Scenario.halves, Qle; simpl; lia).
  destruct (performLogin_retry_policy Scenario.thirdTimeLucky Scenario.halves Hrnd)
    as (_ & _ & _ & Hsucc & _).
  apply (Hsucc "Login error detected" "Login error detected"); reflexivity.
Defined.

End LoginRetry.

(** ** Account on hold *)
Section AccountOnHold.
Import JS Auth.

Lemma performLogin_cases (pages : nat -> LoginPage) (rnd : nat -> Q) :
  let run := performLogin pages rnd in
  (exists u, attemptOnce (pages 1%nat) = Resolved u /\ fst run = [Attempt 1])
  \/ (exists m1 u d1, attemptOnce (pages 1%nat) = Thrown m1
        /\ attemptOnce (pages 2%nat) = Resolved u
        /\ fst run = [Attempt 1; Backoff 1 d1; Attempt 2])
  \/ (exists m1 m2 d1 d2, attemptOnce (pages 1%nat) = Thrown m1
        /\ attemptOnce (pages 2%nat) = Thrown m2
        /\ fst run = [Attempt 1; Backoff 1 d1; Attempt 2; Backoff 2 d2; Attempt 3]).
Proof.
  intros run. subst run. rewrite performLogin_unfold.
  destruct (attemptOnce (pages 1%nat)) as [u1|e1];
    [left; eexists; split; reflexivity|right].
  destruct (attemptOnce (pages 2%nat)) as [u2|e2];
    [left; do 3 eexists; repeat split; reflexivity|right].
  destruct (attemptOnce (pages 3%nat)); cbn [fst app];
    do 4 eexists; repeat split; reflexivity.
Qed.

(** C1, as stated, fails.  All three attempts of this run end on error markup
    saying that the account is on hold: the first one is followed by a
    second and a third, and the run ends with the error of any exhausted
    login. *)
Lemma on_hold_login_is_retried :
  let run := performLogin Scenario.onHold Scenario.halves in
  showsOnHold (Scenario.onHold 1%nat) = true
  /\ In (Attempt 2) (fst run)
  /\ attempts (fst run) = 3%nat
  /\ snd run = Thrown "Login failed after 3 attempts: Login error detected".
Proof. vm_compute. repeat split; auto. Qed.

(** C1, amended.  [performLogin] has no test for an account on hold: a failed
    attempt, whatever its error markup, is followed by another attempt until
    three were made, and the login fails only after the third, with the error
    of an exhausted login.  The phrase is tested by [isLoggedIn] alone, which
    then answers [false]; [login] goes on to [performLogin] after that
    answer. *)
Theorem performLogin_retries_every_failure (pages : nat -> LoginPage) (rnd : nat -> Q) :
  let run := performLogin pages rnd in
  (forall k message, (k < 3)%nat -> In (Attempt k) (fst run) ->
     attemptOnce (pages k) = Thrown message -> In (Attempt (S k)) (fst run))
  /\ (forall message, snd run = Thrown message ->
        attempts (fst run) = 3%nat
        /\ exists cause, attemptOnce (pages 3%nat) = Thrown cause
                         /\ message = "Login failed after 3 attempts: " ++ cause)
  /\ (forall d errorText,
        Bot.accountIssue d = Some errorText ->
        includes errorText "put on hold" = true -> Bot.isLoggedIn d = false)
  /\ (forall cookies d,
        Bot.isLoggedIn d = false -> Bot.login cookies d pages rnd = run).
Proof.
  intros run. split; [|split; [|split]].
  - intros k message Hk Hin Hthrown.
    destruct (performLogin_cases pages rnd) as
      [(u & E1 & Hrun)|[(m1 & u & d1 & E1 & E2 & Hrun)|(m1 & m2 & d1 & d2 & E1 & E2 & Hrun)]];
      fold run in Hrun; rewrite Hrun in Hin |- *; cbn [In] in Hin |- *;
      repeat (destruct Hin as [Hin|Hin]; [try discriminate Hin|]);
      try contradiction; injection Hin as <-; try congruence; try lia; auto 6.
  - intros message Hthrown. subst run. rewrite performLogin_unfold in Hthrown |- *.
    destruct (attemptOnce (pages 1%nat)); [discriminate|].
    destruct (attemptOnce (pages 2%nat)); [discriminate|].
    destruct (attemptOnce (pages 3%nat)) as [|cause]; [discriminate|].
    cbn [fst snd app attempts] in *. split; [reflexivity|].
    exists cause. split; [reflexivity|]. congruence.
  - intros d errorText Hissue Hhold. unfold Bot.isLoggedIn.
    rewrite Hissue, Hhold.
    destruct errorText; [discriminate Hhold|].
    cbn [truthy andb]. now destruct (Bot.probeFails d).
  - intros cookies d Hout. unfold Bot.login. rewrite Hout, andb_false_r. reflexivity.
Qed.

(** The amended statement on the account that is on hold. *)
Lemma performLogin_retries_every_failure_witness :
  In (Attempt 2) (fst (performLogin Scenario.onHold Scenario.halves))
  /\ Bot.isLoggedIn Scenario.heldDashboard = false
  /\ Bot.login 4 Scenario.heldDashboard Scenario.onHold Scenario.halves
     = performLogin Scenario.onHold Scenario.halves.
Proof.
  destruct (performLogin_retries_every_failure Scenario.onHold Scenario.halves)
    as (Hretry & _ & Hhold & Hlogin).
  assert (Hout : Bot.isLoggedIn Scenario.heldDashboard = false)
    by (apply (Hhold _ "Your account has been put on hold"); reflexivity).
  split; [|split].
  - apply (Hretry 1%nat "Login error detected"); [lia | vm_compute; auto | reflexivity].
  - exact Hout.
  - apply Hlogin. exact Hout.
Defined.

End AccountOnHold.

(** ** History scroll *)
Section HistoryScroll.
Import JS Chat.

Variable pages : nat -> Page.

#[local] Abbreviation count k := (getMessageCount (pages k)).

Lemma scrollLoop_spec (remaining : nat) :
  forall a prev,
    ((3 <= a)%nat -> prev = count (a - 1)) ->
    let run := scrollLoop remaining a prev pages in
    (a <= fst run <= a + remaining)%nat
    /\ (forall j, (3 <= j)%nat -> (a <= j < fst run)%nat -> count j <> count (j - 1))
    /\ (snd run = true ->
          (fst run < a + remaining)%nat /\ (3 <= fst run)%nat
          /\ count (fst run) = count (fst run - 1))
    /\ (snd run = false -> fst run = (a + remaining)%nat).
Proof.
  induction remaining as [|remaining IH]; intros a prev Hprev; cbn [scrollLoop].
  - cbn [fst snd]. repeat split; try lia; try discriminate.
  - destruct ((count a =? prev)%nat && (2 <? a)%nat) eqn:Hstop.
    + apply andb_prop in Hstop as [Heq Hgt].
      apply Nat.eqb_eq in Heq. apply Nat.ltb_lt in Hgt.
      cbn [fst snd]. repeat split; try lia; try discriminate.
    + specialize (IH (S a) (count a)).
      destruct IH as (Hrange & Hdiff & Hearly & Hcap).
      { intros _. now replace (S a - 1)%nat with a by lia. }
      split; [lia|]. split; [|split].
      * intros j H3 Hj. destruct (Nat.eq_dec j a) as [->|Hne].
        -- apply andb_false_iff in Hstop as [Hneq|Hsmall].
           ++ apply Nat.eqb_neq in Hneq. rewrite <- Hprev by lia. exact Hneq.
           ++ apply Nat.ltb_ge in Hsmall. lia.
        -- apply Hdiff; lia.
      * intros Htrue. apply Hearly in Htrue. repeat split; lia.
      * intros Hfalse. apply Hcap in Hfalse. lia.
Qed.

(** C6, amended.  The loop makes at most 10 scrolls.  It leaves early exactly
    at the first attempt numbered 3 or more (from 0) whose count equals the
    count read at the attempt before: one unchanged read is enough once three
    scrolls were made, and an unchanged read at an earlier attempt is
    ignored.  When the count grows over the first three scrolls and not at
    the fourth, the loop leaves at attempt 4. *)
Theorem scrollToLoadHistory_stops :
  let run := scrollToLoadHistory pages in
  (fst run <= 10)%nat
  /\ (snd run = true ->
        (3 <= fst run <= 9)%nat
        /\ count (fst run) = count (fst run - 1)
        /\ forall j, (3 <= j < fst run)%nat -> count j <> count (j - 1))
  /\ (snd run = false ->
        fst run = 10%nat
        /\ forall j, (3 <= j <= 9)%nat -> count j <> count (j - 1))
  /\ ((exists k, (3 <= k <= 9)%nat /\ count k = count (k - 1)) -> snd run = true)
  /\ ((count 0 < count 1)%nat -> (count 1 < count 2)%nat -> (count 2 < count 3)%nat ->
      count 4 = count 3 -> run = (4%nat, true)).
Proof.
  cbv zeta. unfold scrollToLoadHistory.
  assert (Hzero : (3 <= 0)%nat -> 0%nat = count (0 - 1)) by lia.
  pose proof (scrollLoop_spec maxScrollAttempts 0 0 Hzero) as Hspec.
  cbv zeta in Hspec.
  remember (scrollLoop maxScrollAttempts 0 0 pages) as run eqn:Hrun.
  clear Hrun.
  destruct Hspec as (Hrange & Hdiff & Hearly & Hcap).
  change maxScrollAttempts with 10%nat in Hrange, Hearly, Hcap.
  assert (Hlate : snd run = false ->
                  fst run = 10%nat
                  /\ forall j, (3 <= j <= 9)%nat -> count j <> count (j - 1)).
  { intros Hfalse. specialize (Hcap Hfalse). split; [lia|].
    intros j Hj. apply Hdiff; lia. }
  assert (Hfirst : snd run = true ->
                   (3 <= fst run <= 9)%nat
                   /\ count (fst run) = count (fst run - 1)
                   /\ forall j, (3 <= j < fst run)%nat -> count j <> count (j - 1)).
  { intros Htrue. specialize (Hearly Htrue). repeat split; try lia.
    intros j Hj. apply Hdiff; lia. }
  split; [lia|]. split; [exact Hfirst|]. split; [exact Hlate|]. split.
  - intros (k & Hk & Heq). destruct (snd run) eqn:Hsnd; [reflexivity|].
    destruct (Hlate eq_refl) as (_ & Hall). exfalso. apply (Hall k Hk Heq).
  - intros H01 H12 H23 H43.
    destruct (snd run) eqn:Hsnd.
    + destruct (Hfirst eq_refl) as (Hn & Heq & Hbefore).
      assert (Hfour : fst run = 4%nat).
      { destruct (Nat.eq_dec (fst run) 3) as [E3|N3].
        - rewrite E3 in Heq. change (3 - 1)%nat with 2%nat in Heq. lia.
        - destruct (Nat.eq_dec (fst run) 4) as [E4|N4]; [exact E4|].
          exfalso. apply (Hbefore 4%nat); [lia|]. exact H43. }
      rewrite (surjective_pairing run), Hfour, Hsnd. reflexivity.
    + destruct (Hlate eq_refl) as (_ & Hall).
      exfalso. apply (Hall 4%nat); [lia|]. exact H43.
Qed.

End HistoryScroll.

(** C6, as stated, fails.  On this conversation the count read at attempts
    0 to 4 is 5, 10, 15, 20, 20: the loop leaves early at attempt 4, where
    the count was unchanged for one attempt only, not for more than 2 in a
    row. *)
Lemma scroll_stops_after_one_unchanged_read :
  Chat.scrollToLoadHistory Scenario.stallsAfterThree = (4%nat, true)
  /\ map (fun k => Chat.getMessageCount (Scenario.stallsAfterThree k))
         [0; 1; 2; 3; 4]%nat = [5; 10; 15; 20; 20]%nat
  /\ Chat.unchangedReads
       (fun k => Chat.getMessageCount (Scenario.stallsAfterThree k)) 4 = 1%nat
  /\ ~ (2 < Chat.unchangedReads
              (fun k => Chat.getMessageCount (Scenario.stallsAfterThree k)) 4)%nat.
Proof.
  assert (E : Chat.unchangedReads
       (fun k => Chat.getMessageCount (Scenario.stallsAfterThree k)) 4 = 1%nat)
    by (vm_compute; reflexivity).
  repeat split; try (vm_compute; reflexivity); try exact E.
  rewrite E. lia.
Qed.

(** The amended statement on that conversation. *)
Lemma scrollToLoadHistory_stops_witness :
  Chat.scrollToLoadHistory Scenario.stallsAfterThree = (4%nat, true).
Proof.
  destruct (scrollToLoadHistory_stops Scenario.stallsAfterThree)
    as (_ & _ & _ & _ & Hfour).
  apply Hfour; vm_compute; auto.
Defined.

(** ** Live watch *)
Section LiveWatch.
Import JS Chat.

Variable Date_parse : string -> option Z.
Variable toISOString : Z -> string.
Variable conversationId : bool.
Variable appendMessage : Message -> Completion unit.

(** No binding named [stealth] is in scope of [startLiveListener]. *)
Lemma stealthRandomDelay_throws (min max : Z) (r : Q) :
  stealthRandomDelay min max r = Thrown "stealth is not defined".
Proof. reflexivity. Qed.

Lemma cyclesBegun_app (a b : list ListenEvent) :
  cyclesBegun (a ++ b) = (cyclesBegun a + cyclesBegun b)%nat.
Proof.
  induction a as [|e a IH]; [reflexivity|].
  destruct e as [c [|]| | | | |]; cbn [app cyclesBegun]; rewrite IH; reflexivity.
Qed.

Lemma hasSlept_app (a b : list ListenEvent) :
  hasSlept (a ++ b) = hasSlept a || hasSlept b.
Proof.
  induction a as [|e a IH]; [reflexivity|].
  destruct e; cbn [app hasSlept orb]; auto.
Qed.

Lemma processNew_events (now : Z) (elements : list Handle) :
  cyclesBegun (fst (processNew Date_parse toISOString conversationId appendMessage
                               now elements)) = 0%nat
  /\ hasSlept (fst (processNew Date_parse toISOString conversationId appendMessage
                               now elements)) = false.
Proof.
  induction elements as [|element rest IH]; cbn [processNew]; [split; reflexivity|].
  destruct (extractMessageData Date_parse toISOString element now 0); [|exact IH].
  destruct (negb (sender m =? "me")%string); [|exact IH].
  destruct (processNew Date_parse toISOString conversationId appendMessage now rest)
    as [events outcome].
  cbn [fst] in IH. destruct IH as [IHc IHs].
  destruct conversationId; [destruct (appendMessage m)|];
    cbn [fst app cyclesBegun hasSlept]; auto.
Qed.

(** Every watch whose callback answers [true] at first ends in its first
    polling cycle with the [ReferenceError], without having slept: the delay
    of a good cycle and the back-off of a bad one both name [stealth]. *)
Lemma startLiveListener_first_cycle (fuel : nat) (listening : nat -> bool)
      (pages : nat -> Page) (clock : nat -> Z) (rnd rndBackoff : nat -> Q) :
  listening 0%nat = true ->
  let run := startLiveListener Date_parse toISOString conversationId appendMessage
                               (S fuel) None listening pages clock rnd rndBackoff in
  snd run = Failed "stealth is not defined"
  /\ cyclesBegun (fst run) = 1%nat
  /\ hasSlept (fst run) = false.
Proof.
  intros Hfirst. cbv zeta. unfold startLiveListener. cbn [listenLoop].
  rewrite Hfirst. unfold pollOnce.
  destruct (pages 0%nat _) as [newMessages|message].
  - pose proof (processNew_events (clock 0%nat) newMessages) as [Hc Hs].
    destruct (processNew Date_parse toISOString conversationId appendMessage
                         (clock 0%nat) newMessages) as [events [u|message]];
      cbn [fst] in Hc, Hs;
      rewrite !stealthRandomDelay_throws; cbn [fst snd];
      (split; [reflexivity|]);
      cbn [app cyclesBegun hasSlept];
      rewrite !cyclesBegun_app, !hasSlept_app, Hc, Hs; split; reflexivity.
  - rewrite !stealthRandomDelay_throws. cbn. repeat split.
Qed.

End LiveWatch.

(** C2.  Two watches that were never cancelled.  On a quiet page the first
    cycle reaches its 1-2 s delay, which throws; on a page whose first query
    fails, the error of the cycle is logged and the 5-10 s back-off throws.
    In both the error leaves the loop, is logged again and rethrown: the
    watch ends after one cycle and never sleeps. *)
Theorem live_watch_ends_in_first_cycle :
  Chat.startLiveListener Host.Date_parse Host.toISOString true Scenario.stored 10 None
    Scenario.always Scenario.quiet Scenario.halfPastTen Scenario.halves Scenario.halves
  = ([Chat.Consulted 0 true;
      Chat.LoggedError "Error in live listener:" "stealth is not defined";
      Chat.LoggedError "Failed to start live listener:" "stealth is not defined";
      Chat.Disconnected],
     Chat.Failed "stealth is not defined")
  /\ Chat.startLiveListener Host.Date_parse Host.toISOString true Scenario.stored 10 None
       Scenario.always Scenario.closedOnce Scenario.halfPastTen Scenario.halves Scenario.halves
     = ([Chat.Consulted 0 true;
         Chat.LoggedError "Error in live listener:" "Target closed";
         Chat.LoggedError "Failed to start live listener:" "stealth is not defined";
         Chat.Disconnected],
        Chat.Failed "stealth is not defined").
Proof. split; vm_compute; reflexivity. Qed.

(** ** Classification of one element *)
Section Classification.
Import JS Chat.

Variable Date_parse : string -> option Z.
Variable toISOString : Z -> string.






Lemma includes_char_app (a b : string) (c : ascii) :
  includes (a ++ b) (String c "") = includes a (String c "") || includes b (String c "").
Proof.
  induction a as [|x a IH].
  - cbn [append includes startsWith orb]. reflexivity.
  - cbn [append]. cbn [includes]. rewrite IH. cbn [startsWith].
    destruct (Ascii.eqb c x); cbn [andb orb]; [reflexivity|].
    reflexivity.
Qed.






End Classification.





(** ** A full extraction pass *)
Section ExtractionPass.
Import JS Chat.

Variable Date_parse : string -> option Z.
Variable toISOString : Z -> string.

#[local] Abbreviation extractOne := (extractMessageData Date_parse toISOString).
#[local] Abbreviation extractFrom := (extractEach Date_parse toISOString).
#[local] Abbreviation same := (sameMessage Date_parse).
#[local] Abbreviation sorted := (sortByTimestamp Date_parse).
#[local] Abbreviation unique := (uniqueMessages Date_parse).
#[local] Abbreviation firsts := (filterFirsts Date_parse).

(** *** The inner loop *)
Lemma extractEach_In (clock : nat -> Z) (elements : list Handle) :
  forall i m,
    In m (extractFrom clock i elements) ->
    exists k el, nth_error elements k = Some el
                 /\ extractOne el (clock (i + k)%nat) (i + k)%nat = Some m.
Proof.
  induction elements as [|element rest IH]; intros i m Hin; cbn [extractEach] in Hin.
  - contradiction.
  - assert (Hrest : In m (extractFrom clock (S i) rest) ->
                    exists k el, nth_error (element :: rest) k = Some el
                                 /\ extractOne el (clock (i + k)%nat) (i + k)%nat = Some m).
    { intros H. apply IH in H as (k & el & Hk & Hm).
      exists (S k), el. split; [exact Hk|].
      now replace (i + S k)%nat with (S i + k)%nat by lia. }
    destruct (extractOne element (clock i) i) as [message|] eqn:Hone; [|auto].
    destruct (truthy (text message)); [|auto].
    destruct Hin as [<-|Hin]; [|auto].
    exists 0%nat, element. split; [reflexivity|].
    now rewrite Nat.add_0_r.
Qed.


(** *** The sort keeps the messages *)
Lemma insertSorted_In (m x : Message) (l : list Message) :
  In x (insertSorted Date_parse m l) <-> x = m \/ In x l.
Proof.
  induction l as [|y l IH]; cbn [insertSorted].
  - cbn. intuition.
  - destruct (before Date_parse y m); cbn [In]; rewrite ?IH; intuition.
Qed.


Lemma sortFrom_In (messages : list Message) :
  forall acc x,
    In x (fold_left (fun done m => insertSorted Date_parse m done) messages acc)
    <-> In x messages \/ In x acc.
Proof.
  induction messages as [|m rest IH]; intros acc x; cbn [fold_left].
  - cbn. intuition.
  - rewrite IH, insertSorted_In. cbn [In]. intuition.
Qed.


Lemma sortByTimestamp_In (messages : list Message) (x : Message) :
  In x (sorted messages) <-> In x messages.
Proof. unfold sortByTimestamp. rewrite sortFrom_In. cbn. intuition. Qed.


(** *** [findIndex] *)
Lemma findIndexFrom_range {A} (pred : A -> bool) (array : list A) :
  forall i, findIndexFrom pred i array = -1 \/ i <= findIndexFrom pred i array.
Proof.
  induction array as [|x rest IH]; intros i; cbn [findIndexFrom].
  - now left.
  - destruct (pred x); [right; lia|].
    destruct (IH (i + 1)); [now left | right; lia].
Qed.

(** The index found is that of an element exactly when the element satisfies
    the predicate and nothing before it does. *)
Lemma findIndexFrom_at {A} (pred : A -> bool) (pre : list A) (x : A) (post : list A) :
  forall i, 0 <= i ->
    (findIndexFrom pred i (pre ++ x :: post) = i + Z.of_nat (List.length pre)
     <-> pred x = true /\ forall y, In y pre -> pred y = false).
Proof.
  induction pre as [|y pre IH]; intros i Hi; cbn [app findIndexFrom List.length].
  - destruct (pred x) eqn:Hx.
    + split; [intros _; split; [reflexivity | intros y []] | intros _; cbn; lia].
    + split; [|intros [H _]; discriminate].
      intros H. destruct (findIndexFrom_range pred post (i + 1)) as [E|E];
        cbn in H; lia.
  - destruct (pred y) eqn:Hy.
    + split; [lia|]. intros [_ H]. specialize (H y (or_introl eq_refl)). congruence.
    + rewrite Nat2Z.inj_succ.
      replace (i + Z.succ (Z.of_nat (List.length pre)))
        with (i + 1 + Z.of_nat (List.length pre)) by lia.
      rewrite IH by lia. cbn [In]. split.
      * intros [Hx Hall]. split; [exact Hx|]. intros z [<-|Hz]; auto.
      * intros [Hx Hall]. split; [exact Hx|]. intros z Hz. apply Hall. now right.
Qed.

Lemma findIndex_at {A} (pred : A -> bool) (pre : list A) (x : A) (post : list A) :
  findIndex pred (pre ++ x :: post) = Z.of_nat (List.length pre)
  <-> pred x = true /\ forall y, In y pre -> pred y = false.
Proof.
  unfold findIndex.
  rewrite <- (findIndexFrom_at pred pre x post 0) by lia. cbn. reflexivity.
Qed.



(** A message kept by the filter sits in the array at the index that
    [findIndex] gives for it. *)
Lemma filterFirsts_In (array rest : list Message) :
  forall i b,
    In b (firsts array i rest) ->
    exists p q, rest = (p ++ b :: q)%list
                /\ findIndex (same b) array = i + Z.of_nat (List.length p).
Proof.
  induction rest as [|m rest IH]; intros i b Hin; cbn [filterFirsts] in Hin.
  - contradiction.
  - assert (Hlater : In b (firsts array (i + 1) rest) ->
                     exists p q, (m :: rest) = (p ++ b :: q)%list
                       /\ findIndex (same b) array = i + Z.of_nat (List.length p)).
    { intros H. apply IH in H as (p & q & -> & Hidx).
      exists (m :: p), q. split; [reflexivity|].
      cbn [List.length]. rewrite Nat2Z.inj_succ. lia. }
    destruct (i =? findIndex (same m) array) eqn:Hkeep; [|auto].
    destruct Hin as [<-|Hin]; [|auto].
    exists [], rest. split; [reflexivity|].
    apply Z.eqb_eq in Hkeep. cbn. lia.
Qed.



(** No message kept by the filter duplicates one kept before it. *)
Lemma filterFirsts_pairs (rest : list Message) :
  forall array pre,
    array = (pre ++ rest)%list ->
    ForallOrdPairs (fun a b => same b a = false)
                   (firsts array (Z.of_nat (List.length pre)) rest).
Proof.
  induction rest as [|m rest IH]; intros array pre Harray; cbn [filterFirsts].
  - constructor.
  - assert (Hnext : array = ((pre ++ [m]) ++ rest)%list)
      by (rewrite <- app_assoc; exact Harray).
    specialize (IH array (pre ++ [m])%list Hnext).
    rewrite length_app in IH. cbn [List.length] in IH.
    replace (Z.of_nat (List.length pre + 1)) with (Z.of_nat (List.length pre) + 1)
      in IH by lia.
    destruct (Z.of_nat (List.length pre) =? findIndex (same m) array); [|exact IH].
    constructor; [|exact IH].
    apply Forall_forall. intros b Hb.
    apply filterFirsts_In in Hb as (p & q & Hrest & Hidx).
    assert (Hsplit : array = ((pre ++ m :: p) ++ b :: q)%list).
    { rewrite Harray, Hrest, <- app_assoc. reflexivity. }
    rewrite Hsplit in Hidx.
    assert (Hlen : Z.of_nat (List.length pre) + 1 + Z.of_nat (List.length p)
                   = Z.of_nat (List.length (pre ++ m :: p))).
    { rewrite length_app. cbn [List.length]. lia. }
    rewrite Hlen in Hidx. apply findIndex_at in Hidx as [_ Hall].
    apply Hall. apply in_or_app. right. now left.
Qed.

Lemma ordPairs_nth {A} (R : A -> A -> Prop) (l : list A) :
  ForallOrdPairs R l ->
  forall i j a b, (i < j)%nat -> nth_error l i = Some a -> nth_error l j = Some b ->
                  R a b.
Proof.
  induction 1 as [|x l Hx _ IH]; intros i j a b Hij Ha Hb.
  - destruct i; discriminate.
  - destruct j as [|j]; [lia|]. cbn [nth_error] in Hb.
    destruct i as [|i].
    + injection Ha as <-. rewrite Forall_forall in Hx.
      apply Hx. eapply nth_error_In; eauto.
    + cbn [nth_error] in Ha. apply (IH i j); auto. lia.
Qed.

(** *** The selector loop *)















End ExtractionPass.





Example echoes_pass :
  map (fun m => (Chat.text m, Chat.timestamp m))
      (Chat.extractMessages Host.Date_parse Host.toISOString
         Scenario.echoes Scenario.halfPastTen)
  = [("ok", "2024-01-15T09:00:00.000Z"); ("fine", "2024-01-15T09:00:00.300Z");
     ("ok", "2024-01-15T09:00:05.000Z")].
Proof. vm_compute. reflexivity. Qed.


(* ================================================================== *)
(** * Part III : the code around the claims                            *)
(* ================================================================== *)

(** ** Cookies and chat history on disk *)
Section StoredSession.
Import JS Storage.

Variable Cookie : Type.
Variable Date_parse : string -> option Z.
Variable toISOString : Z -> string.

#[local] Abbreviation load := (loadCookies Cookie Date_parse).
#[local] Abbreviation save := (saveCookies Cookie toISOString).
#[local] Abbreviation append := (appendMessage Date_parse toISOString).
#[local] Abbreviation saveHistory := (saveChatHistory toISOString).
#[local] Abbreviation stored := (alreadyStored Date_parse).

Lemma loadCookies_cases (now : Z) (file : File (CookieData Cookie)) :
  (forall doc saved,
     file = Holds doc -> Date_parse (timestamp doc) = Some saved ->
     (now - saved <= maxAge -> load now file = Some (cookies doc))
     /\ (maxAge < now - saved -> load now file = None))
  /\ (forall doc,
        file = Holds doc -> Date_parse (timestamp doc) = None ->
        load now file = Some (cookies doc))
  /\ (file = Missing \/ file = Unreadable -> load now file = None).
Proof.
  split; [|split].
  - intros doc saved -> Hsaved. unfold loadCookies. rewrite Hsaved. split; intros Hage.
    + replace (maxAge <? now - saved) with false; [reflexivity|].
      symmetry. apply Z.ltb_ge. exact Hage.
    + replace (maxAge <? now - saved) with true; [reflexivity|].
      symmetry. apply Z.ltb_lt. exact Hage.
  - intros doc -> Hnone. unfold loadCookies. now rewrite Hnone.
  - intros [-> | ->]; reflexivity.
Qed.

(** X1.  A cookie file is used up to and including an age of 7 days and ignored
    beyond; a file whose timestamp is not a date is used whatever its age;
    a missing or unreadable file gives no cookies. *)
Theorem loadCookies_staleness (now : Z) (file : File (CookieData Cookie)) :
  (forall doc saved,
     file = Holds doc -> Date_parse (timestamp doc) = Some saved ->
     (now - saved <= maxAge -> load now file = Some (cookies doc))
     /\ (maxAge < now - saved -> load now file = None))
  /\ (forall doc,
        file = Holds doc -> Date_parse (timestamp doc) = None ->
        load now file = Some (cookies doc))
  /\ (file = Missing \/ file = Unreadable -> load now file = None).
Proof. exact (loadCookies_cases now file). Qed.

Lemma saved_cookies_load (saved later : Z) (cs : list Cookie)
      (file : File (CookieData Cookie)) :
  Date_parse (toISOString saved) = Some saved ->
  (later - saved <= maxAge -> load later (save saved cs true file) = Some cs)
  /\ (maxAge < later - saved -> load later (save saved cs true file) = None).
Proof.
  intros Hround.
  destruct (loadCookies_cases later (save saved cs true file)) as (Hvalid & _ & _).
  exact (Hvalid (mkCookieData cs (toISOString saved) "internshala.com") saved
                eq_refl Hround).
Qed.

(** X2.  Cookies saved at one instant are the cookies loaded at a later one as
    long as no more than 7 days passed, whatever the file held before; a
    save whose write fails leaves the file as it was. *)
Theorem saveCookies_then_loadCookies
        (saved later : Z) (cs : list Cookie) (file : File (CookieData Cookie)) :
  Date_parse (toISOString saved) = Some saved ->
  (later - saved <= maxAge -> load later (save saved cs true file) = Some cs)
  /\ (maxAge < later - saved -> load later (save saved cs true file) = None)
  /\ save saved cs false file = file.
Proof.
  intros Hround.
  destruct (saved_cookies_load saved later cs file Hround) as [Hfresh Hstale].
  split; [exact Hfresh|]. split; [exact Hstale|]. reflexivity.
Qed.

Lemma lookup_assign_same (d : HistoryData) (key : string) (c : Conversation) :
  lookup (assign d key c) key = Some c.
Proof.
  induction d as [|[k c'] rest IH]; cbn [assign lookup].
  - now rewrite String.eqb_refl.
  - destruct (String.eqb k key) eqn:Hk; cbn [lookup]; rewrite ?Hk; auto.
    now rewrite String.eqb_refl.
Qed.

Lemma lookup_assign_other (d : HistoryData) (key other : string) (c : Conversation) :
  other <> key -> lookup (assign d key c) other = lookup d other.
Proof.
  intros Hne. induction d as [|[k c'] rest IH]; cbn [assign lookup].
  - replace (String.eqb key other) with false; [reflexivity|].
    symmetry. apply String.eqb_neq. congruence.
  - destruct (String.eqb k key) eqn:Hk; cbn [lookup].
    + apply String.eqb_eq in Hk. subst k.
      replace (String.eqb key other) with false; [reflexivity|].
      symmetry. apply String.eqb_neq. congruence.
    + now rewrite IH.
Qed.

Lemma find_last_match {A} (pred : A -> bool) (l : list A) (x : A) :
  pred x = true -> find pred (l ++ [x]) <> None.
Proof.
  intros Hx. induction l as [|y l IH]; cbn [app find].
  - rewrite Hx. discriminate.
  - destruct (pred y); [discriminate | exact IH].
Qed.

Lemma find_none_app {A} (pred : A -> bool) (l : list A) (x : A) :
  find pred l = None -> pred x = false -> find pred (l ++ [x]) = None.
Proof.
  intros Hl Hx. induction l as [|y l IH]; cbn [app find] in *.
  - now rewrite Hx.
  - destruct (pred y); [discriminate | auto].
Qed.

(** A message is a duplicate of itself when its timestamp is a date. *)
Lemma alreadyStored_self (message : Chat.Message) :
  Date_parse (Chat.timestamp message) <> None -> stored message message = true.
Proof.
  intros Hvalid. unfold alreadyStored, Chat.timeDiff.
  rewrite String.eqb_refl.
  destruct (Date_parse (Chat.timestamp message)); [|congruence].
  rewrite Z.sub_diag. reflexivity.
Qed.

Lemma alreadyStored_invalid (message m : Chat.Message) :
  Date_parse (Chat.timestamp message) = None -> stored message m = false.
Proof.
  intros Hnone. unfold alreadyStored, Chat.timeDiff. rewrite Hnone.
  destruct (Date_parse (Chat.timestamp m)); apply andb_false_r.
Qed.

(** The conversation read back after an append that wrote. *)
Lemma appendMessage_written (now : Z) (id : string) (message : Chat.Message)
      (file : File HistoryData) :
  find (stored message) (messages (loadChatHistory id file)) = None ->
  loadChatHistory id (append now id message true file)
  = mkConversation (messages (loadChatHistory id file) ++ [message])
                   (Some (toISOString now))
                   (List.length (messages (loadChatHistory id file) ++ [message])).
Proof.
  intros Hnone. unfold appendMessage, loadChatHistory in *.
  destruct (lookup (loadAll file) id) as [c|] eqn:Hc;
    rewrite Hnone; cbn [writeFile loadAll]; now rewrite lookup_assign_same.
Qed.

(** X3.  Appending a message whose timestamp is a date a second time changes
    nothing, whenever the second call is made and whether or not its write
    could succeed; and once a message was written, a message of the same text
    less than 5 seconds from it is not stored. *)
Theorem appendMessage_once (now later : Z) (id : string) (message : Chat.Message)
        (writable : bool) (file : File HistoryData) :
  Date_parse (Chat.timestamp message) <> None ->
  append later id message writable (append now id message true file)
  = append now id message true file
  /\ (forall near,
        find (stored message) (messages (loadChatHistory id file)) = None ->
        stored near message = true ->
        append later id near writable (append now id message true file)
        = append now id message true file).
Proof.
  intros Hvalid.
  assert (Hafter : forall near,
            find (stored message) (messages (loadChatHistory id file)) = None ->
            stored near message = true ->
            append later id near writable (append now id message true file)
            = append now id message true file).
  { intros near Hnone Hnear.
    pose proof (appendMessage_written now id message file Hnone) as Hread.
    remember (append now id message true file) as once eqn:Honce.
    unfold appendMessage at 1. fold (loadChatHistory id once).
    rewrite Hread. cbn [messages].
    destruct (find (stored near) (messages (loadChatHistory id file) ++ [message]))
      eqn:Hfind; [reflexivity|].
    exfalso. revert Hfind. now apply find_last_match. }
  split; [|exact Hafter].
  destruct (find (stored message) (messages (loadChatHistory id file))) eqn:Hfound.
  - assert (Hsame : append now id message true file = file).
    { unfold appendMessage. fold (loadChatHistory id file). now rewrite Hfound. }
    rewrite Hsame. unfold appendMessage. fold (loadChatHistory id file).
    now rewrite Hfound.
  - apply Hafter; [reflexivity|]. now apply alreadyStored_self.
Qed.

(** X4.  A message whose timestamp is not a date is never taken for a duplicate:
    every append that can write stores one more copy of it. *)
Theorem appendMessage_invalid_timestamp (now : Z) (id : string)
        (message : Chat.Message) (file : File HistoryData) :
  Date_parse (Chat.timestamp message) = None ->
  messages (loadChatHistory id (append now id message true file))
  = (messages (loadChatHistory id file) ++ [message])%list.
Proof.
  intros Hnone.
  assert (Hfind : find (stored message) (messages (loadChatHistory id file)) = None).
  { induction (messages (loadChatHistory id file)) as [|m l IH]; cbn [find].
    - reflexivity.
    - now rewrite (alreadyStored_invalid message m Hnone). }
  now rewrite (appendMessage_written now id message file Hfind).
Qed.

Lemma counted_assign (d : HistoryData) (key : string) (c : Conversation) :
  Forall (fun kc => messageCount (snd kc) = List.length (messages (snd kc))) d ->
  messageCount c = List.length (messages c) ->
  Forall (fun kc => messageCount (snd kc) = List.length (messages (snd kc)))
         (assign d key c).
Proof.
  intros Hd Hc. induction d as [|[k c'] rest IH]; cbn [assign].
  - constructor; [exact Hc | constructor].
  - inversion Hd as [|? ? Hhead Hrest]; subst.
    destruct (String.eqb k key); constructor; auto.
Qed.

(** X5.  [appendMessage] and [saveChatHistory] touch one conversation only, keep
    the messages it already held in front, and keep every [messageCount]
    equal to the number of messages stored. *)
Theorem history_writes_are_local (now : Z) (id : string) (message : Chat.Message)
        (msgs : list Chat.Message) (writable : bool) (file : File HistoryData) :
  (forall other, other <> id ->
     loadChatHistory other (append now id message writable file)
     = loadChatHistory other file
     /\ (writable = true ->
         loadChatHistory other (saveHistory now id msgs writable file)
         = loadChatHistory other file))
  /\ (exists added,
        messages (loadChatHistory id (append now id message writable file))
        = (messages (loadChatHistory id file) ++ added)%list
        /\ (added = [] \/ added = [message]))
  /\ (Forall (fun kc => messageCount (snd kc) = List.length (messages (snd kc)))
             (loadAll file) ->
      Forall (fun kc => messageCount (snd kc) = List.length (messages (snd kc)))
             (loadAll (append now id message writable file))
      /\ Forall (fun kc => messageCount (snd kc) = List.length (messages (snd kc)))
                (loadAll (saveHistory now id msgs writable file))).
Proof.
  split; [|split].
  - intros other Hother. split.
    + unfold appendMessage.
      destruct (find _ _); [reflexivity|].
      destruct writable; cbn [writeFile]; [|reflexivity].
      unfold loadChatHistory. cbn [loadAll]. now rewrite lookup_assign_other.
    + intros ->. unfold saveChatHistory, loadChatHistory. cbn [writeFile loadAll].
      now rewrite lookup_assign_other.
  - destruct (find (stored message) (messages (loadChatHistory id file))) eqn:Hfind.
    + exists []. split; [|now left].
      unfold appendMessage. fold (loadChatHistory id file).
      rewrite Hfind. now rewrite app_nil_r.
    + destruct writable.
      * exists [message]. split; [|now right].
        now rewrite (appendMessage_written now id message file Hfind).
      * exists []. split; [|now left].
        unfold appendMessage. fold (loadChatHistory id file).
        rewrite Hfind. cbn [writeFile]. now rewrite app_nil_r.
  - intros Hcounted. split.
    + unfold appendMessage. destruct (find _ _); [exact Hcounted|].
      destruct writable; cbn [writeFile]; [|exact Hcounted].
      cbn [loadAll]. apply counted_assign; [exact Hcounted | reflexivity].
    + unfold saveChatHistory. destruct writable; cbn [writeFile]; [|exact Hcounted].
      cbn [loadAll]. apply counted_assign; [exact Hcounted | reflexivity].
Qed.

(** X6.  A history saved for a conversation is the history loaded for it,
    whatever the file held before, a file that could not be parsed
    included. *)
Theorem saveChatHistory_then_loadChatHistory (now : Z) (id : string)
        (msgs : list Chat.Message) (file : File HistoryData) :
  loadChatHistory id (saveHistory now id msgs true file)
  = mkConversation msgs (Some (toISOString now)) (List.length msgs)
  /\ (file = Unreadable ->
      loadAll (saveHistory now id msgs true file)
      = [(id, mkConversation msgs (Some (toISOString now)) (List.length msgs))]).
Proof.
  split.
  - unfold saveChatHistory, loadChatHistory. cbn [writeFile loadAll].
    now rewrite lookup_assign_same.
  - intros ->. reflexivity.
Qed.

Lemma totalMessages_from (d : HistoryData) :
  forall start,
    Forall (fun kc => messageCount (snd kc) = List.length (messages (snd kc))) d ->
    fold_left (fun total conv => (total + messageCount (snd conv))%nat) d start
    = (start + List.length (List.concat (map (fun kc => messages (snd kc)) d)))%nat.
Proof.
  induction d as [|[k c] rest IH]; intros start Hd; cbn [fold_left map List.concat].
  - cbn. lia.
  - inversion Hd as [|? ? Hhead Hrest]; subst. cbn [snd] in *.
    rewrite IH by exact Hrest. rewrite length_app, Hhead. lia.
Qed.

(** X7.  On a history whose counters are right, which the writes above keep so,
    the [totalMessages] of the statistics is the number of messages
    stored. *)
Theorem totalMessages_counts_messages (file : File HistoryData) :
  Forall (fun kc => messageCount (snd kc) = List.length (messages (snd kc)))
         (loadAll file) ->
  totalMessages file
  = List.length (List.concat (map (fun kc => messages (snd kc)) (loadAll file))).
Proof.
  intros Hcounted. unfold totalMessages.
  now rewrite (totalMessages_from _ 0%nat Hcounted).
Qed.

Lemma lookup_filter_kept (keep : Conversation -> bool) (d : HistoryData)
      (key : string) (c : Conversation) :
  lookup d key = Some c -> keep c = true ->
  lookup (filter (fun kc => keep (snd kc)) d) key = Some c.
Proof.
  intros Hfound Hkeep. induction d as [|[k c'] rest IH]; cbn [lookup] in Hfound;
    [discriminate|]. cbn [filter snd].
  destruct (String.eqb k key) eqn:Hk.
  - injection Hfound as ->. rewrite Hkeep. cbn [lookup]. now rewrite Hk.
  - destruct (keep c'); [cbn [lookup]; rewrite Hk|]; now apply IH.
Qed.

Lemma nothing_filtered {A} (f : A -> bool) (l : list A) :
  List.length (filter f l) = 0%nat -> Forall (fun a => f a = false) l.
Proof.
  induction l as [|a l IH]; cbn [filter]; intros Hnone; constructor.
  - destruct (f a); [discriminate | reflexivity].
  - apply IH. destruct (f a); [discriminate | exact Hnone].
Qed.

(** X30.  [cleanup] removes old conversations only.  A conversation whose
    [lastUpdated] is missing, is not a date or is not before the cutoff
    ([maxAge] days before now) is loaded after the cleanup as before it;
    after a cleanup that can write, no conversation updated before the
    cutoff is left; and a history saved no more than [maxAge] days before
    the cleanup is still loaded after it. *)
Theorem cleanup_removes_stale_only (now maxAge : Z) (writable : bool)
        (file : File HistoryData) :
  let cutoff := now - maxAge * 24 * 60 * 60 * 1000 in
  (forall id c,
     lookup (loadAll file) id = Some c -> stale Date_parse cutoff c = false ->
     loadChatHistory id (cleanup Date_parse now maxAge writable file) = c)
  /\ (writable = true ->
      Forall (fun kc => stale Date_parse cutoff (snd kc) = false)
             (loadAll (cleanup Date_parse now maxAge writable file)))
  /\ (forall saved id msgs before,
        Date_parse (toISOString saved) = Some saved ->
        cutoff <= saved ->
        file = saveHistory saved id msgs true before ->
        loadChatHistory id (cleanup Date_parse now maxAge writable file)
        = mkConversation msgs (Some (toISOString saved)) (List.length msgs)).
Proof.
  cbv zeta.
  set (cutoff := now - maxAge * 24 * 60 * 60 * 1000).
  assert (Hkept : forall id c,
             lookup (loadAll file) id = Some c -> stale Date_parse cutoff c = false ->
             loadChatHistory id (cleanup Date_parse now maxAge writable file) = c).
  { intros id c Hfound Hfresh. unfold cleanup. fold cutoff.
    destruct (0 <? List.length
                     (filter (fun kc => stale Date_parse cutoff (snd kc)) (loadAll file)))%nat;
      [destruct writable|]; unfold writeFile, loadChatHistory; cbn [loadAll];
      try (now rewrite Hfound).
    rewrite (lookup_filter_kept (fun c' => negb (stale Date_parse cutoff c'))
               (loadAll file) id c Hfound); [reflexivity|].
    now rewrite Hfresh. }
  split; [exact Hkept|]. split.
  - intros ->. unfold cleanup. fold cutoff.
    destruct (0 <? List.length
                     (filter (fun kc => stale Date_parse cutoff (snd kc)) (loadAll file)))%nat
      eqn:Hcleaned.
    + unfold writeFile. cbn [loadAll]. apply Forall_forall. intros kc Hin.
      apply filter_In in Hin as [_ Hfresh]. now apply negb_true_iff in Hfresh.
    + apply Nat.ltb_ge in Hcleaned. apply nothing_filtered. lia.
  - intros saved id msgs before Hdate Hrecent ->.
    apply Hkept.
    + unfold saveChatHistory, writeFile. cbn [loadAll]. apply lookup_assign_same.
    + unfold stale. cbn [lastUpdated]. rewrite Hdate.
      replace (saved <? cutoff) with false; [apply andb_false_r|].
      symmetry. apply Z.ltb_ge. exact Hrecent.
Qed.

End StoredSession.

(** ** Session reuse *)
Section SessionReuse.
Import JS.

Variable Cookie : Type.
Variable Date_parse : string -> option Z.
Variable toISOString : Z -> string.

#[local] Abbreviation login := (Session.login Cookie Date_parse toISOString).

(** The outcome and the attempts of [login] with the cookie file are those of
    the [login] of the bot given the number of cookies loaded. *)
Lemma login_as_bot (now after : Z) (fresh : list Cookie) (writable : bool)
      (file : Storage.File (Storage.CookieData Cookie))
      (d : Bot.Dashboard) (pages : nat -> Auth.LoginPage) (rnd : nat -> Q) :
  fst (login now after fresh writable file d pages rnd)
  = Bot.login (match Storage.loadCookies Cookie Date_parse now file with
               | Some cs => List.length cs
               | None => 0%nat
               end) d pages rnd.
Proof.
  unfold Session.login, Bot.login, Session.usable.
  destruct (Storage.loadCookies Cookie Date_parse now file) as [cs|].
  - destruct ((0 <? List.length cs)%nat && Bot.isLoggedIn d); [reflexivity|].
    destruct (Auth.performLogin pages rnd) as [events [[]|message]]; reflexivity.
  - change (0 <? 0)%nat with false. cbn [andb].
    destruct (Auth.performLogin pages rnd) as [events [[]|message]]; reflexivity.
Qed.

(** X8.  The life of a session.  With a cookie file older than 7 days, missing or
    unreadable, [login] goes through [performLogin] whatever the dashboard
    shows.  A fresh login that succeeds saves the cookies of the browser; a
    login that fails leaves the cookie file untouched.  And a login made up
    to 7 days after such a save, on a dashboard that shows the user logged
    in, makes no login attempt at all. *)
Theorem login_session_lifecycle
        (now after later : Z) (fresh : list Cookie)
        (file : Storage.File (Storage.CookieData Cookie))
        (d : Bot.Dashboard) (pages : nat -> Auth.LoginPage) (rnd : nat -> Q) :
  let first := login now after fresh true file d pages rnd in
  (Storage.loadCookies Cookie Date_parse now file = None ->
   fst (fst first) = fst (Auth.performLogin pages rnd)
   /\ snd (fst first) = snd (Auth.performLogin pages rnd))
  /\ (forall message, snd (fst first) = Thrown message -> snd first = file)
  /\ (Storage.loadCookies Cookie Date_parse now file = None ->
      snd (fst first) = Resolved tt ->
      Date_parse (toISOString after) = Some after ->
      later - after <= Storage.maxAge -> fresh <> [] ->
      forall d' pages' rnd' after' fresh' writable',
        Bot.isLoggedIn d' = true ->
        login later after' fresh' writable' (snd first) d' pages' rnd'
        = ([], Resolved tt, snd first)).
Proof.
  intros first. subst first. unfold Session.login.
  split; [|split].
  - intros Hnone. rewrite Hnone. cbn [Session.usable andb].
    destruct (Auth.performLogin pages rnd) as [events [[]|message]]; split; reflexivity.
  - intros message.
    destruct (Session.usable Cookie _ && Bot.isLoggedIn d); cbn [fst snd]; [discriminate|].
    destruct (Auth.performLogin pages rnd) as [events [[]|message']]; cbn [fst snd];
      [discriminate | reflexivity].
  - intros Hnone. rewrite Hnone. cbn [Session.usable andb].
    destruct (Auth.performLogin pages rnd) as [events [[]|message]]; cbn [fst snd];
      [|discriminate].
    intros _ Hround Hage Hfresh d' pages' rnd' after' fresh' writable' Hin.
    destruct (saved_cookies_load Cookie Date_parse toISOString
                after later fresh file Hround) as (Hload & _).
    rewrite (Hload Hage), Hin. cbn [Session.usable].
    destruct fresh; [congruence|]. reflexivity.
Qed.

End SessionReuse.

(** ** The listening flag *)
Section ListeningFlag.
Import JS Chat Session.

Variable Date_parse : string -> option Z.
Variable toISOString : Z -> string.
Variable appendMessage : Message -> Completion unit.

(** X9.  A bot that is not listening starts a watch and raises its flag.  The
    callback reads that flag ([listening k] is its value at the [k]-th
    reading).  The watch fails in its first cycle with the [ReferenceError], and the flag
    stays raised: the next [startListening] returns at once without starting
    a watch, until [stopListening] lowers the flag. *)
Theorem startListening_flag_stays_raised
        (conversationId again : option string) (current : option string)
        (fuel : nat) (listening : nat -> bool) (pages : nat -> Page)
        (clock : nat -> Z) (rnd rndBackoff : nat -> Q) :
  listening 0%nat = true ->
  let watch := fun conversation =>
    startLiveListener Date_parse toISOString conversation appendMessage
                      (S fuel) None listening pages clock rnd rndBackoff in
  let started := startListening conversationId (mkBotState false current) watch in
  isListening (fst started) = true
  /\ (exists events, snd started = Some (events, Failed "stealth is not defined"))
  /\ snd (startListening again (fst started) watch) = None
  /\ (exists run, snd (startListening again (stopListening (fst started)) watch)
                  = Some run).
Proof.
  intros Hfirst watch started.
  assert (Hflag : forall c st, isListening (navigateIfNeeded c st) = isListening st).
  { intros c st. unfold navigateIfNeeded. destruct c as [wanted|]; [|reflexivity].
    now destruct (truthy wanted && _). }
  assert (Hbusy : forall c st, isListening st = true ->
                    snd (startListening c st watch) = None).
  { intros c st Hst. unfold startListening. now rewrite Hflag, Hst. }
  assert (Hidle : forall c st, isListening st = false ->
                    isListening (fst (startListening c st watch)) = true
                    /\ exists conversation,
                         snd (startListening c st watch) = Some (watch conversation)).
  { intros c st Hst. unfold startListening. rewrite Hflag, Hst. cbn [fst snd isListening].
    split; [reflexivity|]. eexists. reflexivity. }
  destruct (Hidle conversationId (mkBotState false current) eq_refl)
    as (Hraised & conversation & Hwatch).
  fold started in Hraised, Hwatch.
  split; [exact Hraised|]. split; [|split].
  - pose proof (startLiveListener_first_cycle Date_parse toISOString conversation
                  appendMessage fuel listening pages clock rnd rndBackoff Hfirst)
      as (Hout & _).
    cbv zeta in Hout. fold (watch conversation) in Hout.
    exists (fst (watch conversation)).
    rewrite Hwatch, <- Hout. now rewrite <- surjective_pairing.
  - now apply Hbusy.
  - destruct (Hidle again (stopListening (fst started)) eq_refl) as (_ & c & Hrun).
    eexists. exact Hrun.
Qed.

End ListeningFlag.

(** ** The pace of the typing *)
Section TypingPace.
Import JS Stealth.

Ltac step_sim :=
  unfold randomDelay, bind, mathRandom, sleep, send, ret; cbn [fst snd
    draws cursor field elapsed keys applyKey].

(** The bounds of every delay that shows in the goal, given that the draws
    are in [0, 1). *)
Ltac bound_delays Hd :=
  repeat match goal with
         | |- context [floorMul ?r 150] =>
             lazymatch goal with
             | _ : 0 <= floorMul r 150 |- _ => fail
             | _ => pose proof (floorMul_nonneg r 150 (proj1 (Hd _)) ltac:(lia));
                    pose proof (floorMul_below r 150 (proj2 (Hd _)) ltac:(lia))
             end
         end;
  repeat match goal with
         | |- context [delayOf ?a ?b ?r] =>
             lazymatch goal with
             | _ : a <= delayOf a b r <= b |- _ => fail
             | _ => pose proof (delayOf_bounds a b r (proj1 (Hd _)) (proj2 (Hd _))
                                               ltac:(lia))
             end
         end.

(** X10.  [randomDelay(min, max)] sleeps at least [min] and at most [max]
    milliseconds, consumes one draw, and touches neither the input nor the
    keys. *)
Theorem randomDelay_within (min max : Z) (w : World) :
  (0 <= draws w (cursor w))%Q -> (draws w (cursor w) < 1)%Q -> min <= max ->
  let w' := snd (randomDelay min max w) in
  min <= elapsed w' - elapsed w <= max
  /\ cursor w' = S (cursor w)
  /\ field w' = field w /\ keys w' = keys w.
Proof.
  intros H0 H1 Hle. step_sim.
  pose proof (delayOf_bounds min max (draws w (cursor w)) H0 H1 Hle).
  repeat split; try reflexivity; lia.
Qed.

(** X11.  Whatever the draws, the characters that [humanType] types are those of
    the text, in order and once each. *)
Theorem humanType_types_text (text content : string) (rnd : nat -> Q) :
  typedChars (keys (snd (humanType text (fresh rnd content)))) = text.
Proof.
  unfold humanType, fresh. step_sim. now rewrite typeFrom_keys.
Qed.

Lemma typeFrom_elapsed (text : string) :
  forall i w,
    (forall n, (0 <= draws w n)%Q /\ (draws w n < 1)%Q) ->
    elapsed w + 50 * Z.of_nat (String.length text)
    <= elapsed (snd (typeFrom i text w))
    <= elapsed w + 1249 * Z.of_nat (String.length text).
Proof.
  induction text as [|c rest IH]; intros i w Hd.
  - cbn. lia.
  - cbn [typeFrom String.length]. rewrite Nat2Z.inj_succ. step_sim.
    destruct (Qltb (draws w (S (cursor w))) (2 # 100) && (0 <? i)%nat);
      step_sim;
      match goal with
      | |- context [if Qltb ?q (1 # 10) then _ else _] => destruct (Qltb q (1 # 10))
      end; step_sim;
      match goal with
      | |- context [typeFrom (S i) rest ?w'] =>
          pose proof (IH (S i) w' Hd) as Hrest; cbn [elapsed] in Hrest
      end;
      bound_delays Hd; lia.
Qed.

(** X12.  With draws in [0, 1), typing [n] characters takes at least [100 + 50 n]
    and at most [300 + 1249 n] milliseconds of sleep. *)
Theorem humanType_duration (text content : string) (rnd : nat -> Q) :
  (forall n, (0 <= rnd n)%Q /\ (rnd n < 1)%Q) ->
  100 + 50 * Z.of_nat (String.length text)
  <= elapsed (snd (humanType text (fresh rnd content)))
  <= 300 + 1249 * Z.of_nat (String.length text).
Proof.
  intros Hd. unfold humanType, fresh. step_sim.
  match goal with
  | |- context [typeFrom 0 text ?w'] =>
      pose proof (typeFrom_elapsed text 0%nat w' Hd) as Hrest; cbn [elapsed] in Hrest
  end.
  pose proof (delayOf_bounds 100 300 (rnd 0%nat) (proj1 (Hd _)) (proj2 (Hd _))
                             ltac:(lia)).
  lia.
Qed.

End TypingPace.

(** ** The pointer *)
Section PointerMoves.
Import JS Pointer.

Ltac step_ptr :=
  unfold bind, lift, act, remember, recall, ret,
         Stealth.randomDelay, Stealth.bind, Stealth.mathRandom, Stealth.sleep;
  cbn [fst snd sim stored actions Stealth.draws Stealth.cursor Stealth.field
       Stealth.elapsed Stealth.keys].

Lemma moveSteps_path (startX startY deltaX deltaY : Q) (remaining : nat) :
  forall i w,
    let w' := snd (moveSteps remaining i startX startY deltaX deltaY w) in
    stored w' = stored w
    /\ Stealth.draws (sim w') = Stealth.draws (sim w)
    /\ exists path,
         actions w' = (actions w ++ path)%list
         /\ List.length path = remaining
         /\ Forall (fun a => exists px py, a = Move px py) path.
Proof.
  induction remaining as [|remaining IH]; intros i w; cbn [moveSteps].
  - step_ptr. repeat split; auto. exists []. rewrite app_nil_r. repeat split; auto.
  - step_ptr.
    match goal with
    | |- context [moveSteps remaining (S i) _ _ _ _ ?w1] =>
        destruct (IH (S i) w1) as (Hstored & Hdraws & path & Hpath & Hlen & Hmoves)
    end.
    cbn [stored sim actions Stealth.draws] in Hstored, Hdraws, Hpath.
    split; [exact Hstored|]. split; [exact Hdraws|].
    eexists (_ :: path). rewrite Hpath, <- app_assoc. cbn [app List.length].
    split; [reflexivity|]. split; [now rewrite Hlen|].
    constructor; [eauto | exact Hmoves].
Qed.

Lemma humanMouseMove_path (targetX targetY : Q) (w : World) :
  (0 <= Stealth.draws (sim w) (Stealth.cursor (sim w)))%Q ->
  (Stealth.draws (sim w) (Stealth.cursor (sim w)) < 1)%Q ->
  let w' := snd (humanMouseMove targetX targetY w) in
  stored w' = (targetX, targetY)
  /\ Stealth.draws (sim w') = Stealth.draws (sim w)
  /\ exists path,
       actions w' = (actions w ++ path ++ [Move targetX targetY])%list
       /\ (5 <= List.length path <= 14)%nat
       /\ Forall (fun a => exists px py, a = Move px py) path.
Proof.
  intros H0 H1. unfold humanMouseMove. step_ptr.
  set (r := Stealth.draws (sim w) (Stealth.cursor (sim w))) in *.
  pose proof (floorMul_nonneg r 10 H0 ltac:(lia)) as Hlow.
  pose proof (floorMul_below r 10 H1 ltac:(lia)) as Hhigh.
  match goal with
  | |- context [moveSteps ?n ?i ?sx ?sy ?dx ?dy ?w1] =>
      destruct (moveSteps_path sx sy dx dy n i w1)
        as (Hstored & Hdraws & path & Hpath & Hlen & Hmoves);
      destruct (moveSteps n i sx sy dx dy w1) as [u w2]
  end.
  cbn [fst snd stored sim actions Stealth.draws] in *.
  split; [reflexivity|]. split; [exact Hdraws|].
  exists path. rewrite Hpath, <- app_assoc.
  split; [reflexivity|]. split; [|exact Hmoves].
  rewrite Hlen. lia.
Qed.

(** X13.  [humanMouseMove] makes between 5 and 14 jittered moves and then one move
    to the target itself, which it records as the position of the mouse; it
    never clicks. *)
Theorem humanMouseMove_reaches_target (targetX targetY : Q) (w : World) :
  (0 <= Stealth.draws (sim w) (Stealth.cursor (sim w)))%Q ->
  (Stealth.draws (sim w) (Stealth.cursor (sim w)) < 1)%Q ->
  let w' := snd (humanMouseMove targetX targetY w) in
  stored w' = (targetX, targetY)
  /\ Stealth.draws (sim w') = Stealth.draws (sim w)
  /\ exists path,
       actions w' = (actions w ++ path ++ [Move targetX targetY])%list
       /\ (5 <= List.length path <= 14)%nat
       /\ Forall (fun a => exists px py, a = Move px py) path.
Proof. exact (humanMouseMove_path targetX targetY w). Qed.

Lemma jitter_small (r : Q) :
  (0 <= r)%Q -> (r < 1)%Q -> (-1 <= jitter r)%Q /\ (jitter r <= 1)%Q.
Proof. intros H0 H1. unfold jitter. split; lra. Qed.

Lemma scaled_within (r size : Q) :
  (0 <= r)%Q -> (r < 1)%Q -> (0 <= size)%Q ->
  (0 <= r * size)%Q /\ (r * size <= size)%Q.
Proof.
  intros H0 H1 Hsize. split.
  - now apply Qmult_le_0_compat.
  - setoid_replace size with (1 * size)%Q at 2 by ring.
    apply Qmult_le_compat_r; [lra | exact Hsize].
Qed.

(** X14.  [humanClick] on an element without bounding box throws and touches
    nothing.  On a visible element it moves the pointer to a point of the
    box and clicks once, at most one pixel away from that point on each axis:
    the click can fall up to a pixel outside the element. *)
Theorem humanClick_near_box (box : option Box) (w : World) :
  (forall n, (0 <= Stealth.draws (sim w) n)%Q /\ (Stealth.draws (sim w) n < 1)%Q) ->
  (box = None ->
   humanClick box w = (Thrown "Element not visible for clicking", w))
  /\ (forall b, box = Some b -> (0 <= width b)%Q -> (0 <= height b)%Q ->
      fst (humanClick box w) = Resolved tt
      /\ exists path px py cx cy,
           actions (snd (humanClick box w))
           = (actions w ++ path ++ [Move px py; Click cx cy])%list
           /\ Forall (fun a => exists qx qy, a = Move qx qy) path
           /\ (x b <= px)%Q /\ (px <= x b + width b)%Q
           /\ (y b <= py)%Q /\ (py <= y b + height b)%Q
           /\ (px - 1 <= cx)%Q /\ (cx <= px + 1)%Q
           /\ (py - 1 <= cy)%Q /\ (cy <= py + 1)%Q).
Proof.
  intros Hd. split; [intros ->; reflexivity|].
  intros b -> Hw Hh. unfold humanClick. step_ptr.
  set (rx := Stealth.draws (sim w) (Stealth.cursor (sim w))).
  set (ry := Stealth.draws (sim w) (S (Stealth.cursor (sim w)))).
  match goal with
  | |- context [humanMouseMove ?px ?py ?w1] =>
      destruct (humanMouseMove_path px py w1)
        as (_ & Hdraws & path & Hpath & _ & Hmoves);
      [apply Hd | apply Hd |];
      destruct (humanMouseMove px py w1) as [u w2]
  end.
  cbn [fst snd stored sim actions Stealth.draws] in *.
  split; [reflexivity|].
  rewrite Hpath, Hdraws.
  eexists path, _, _, _, _.
  split; [rewrite <- !app_assoc; cbn [app]; reflexivity|].
  split; [exact Hmoves|].
  destruct (scaled_within rx (width b) (proj1 (Hd _)) (proj2 (Hd _)) Hw) as [Hx0 Hx1].
  destruct (scaled_within ry (height b) (proj1 (Hd _)) (proj2 (Hd _)) Hh) as [Hy0 Hy1].
  match goal with
  | |- context [jitter ?jx] =>
      destruct (jitter_small jx (proj1 (Hd _)) (proj2 (Hd _))) as [Hjx0 Hjx1]
  end.
  match goal with
  | |- context [(y b + ry * height b + jitter ?jy)%Q] =>
      destruct (jitter_small jy (proj1 (Hd _)) (proj2 (Hd _))) as [Hjy0 Hjy1]
  end.
  repeat split; lra.
Qed.

(** X15.  [humanScroll] over a whole number of pixels: under 50 pixels it sends no
    wheel event at all; from 50 pixels on it sends [floor(distance / 50)]
    equal steps, each of 50 pixels or more and less than 100, that add up to
    the distance. *)
Theorem humanScroll_covers_distance (down : bool) (distance : Z) :
  (distance < 50 -> wheelDeltas down distance = [])
  /\ (50 <= distance ->
      Z.of_nat (List.length (wheelDeltas down distance)) = distance / 50
      /\ (fold_right Qplus 0%Q (wheelDeltas down distance)
          == (if down then inject_Z distance else - inject_Z distance))%Q
      /\ Forall (fun delta =>
                   let size := (if down then delta else - delta)%Q in
                   (50 <= size)%Q /\ (size < 100)%Q)
                (wheelDeltas down distance)).
Proof.
  unfold wheelDeltas, scrollSteps. split.
  - intros Hsmall.
    assert (Hnone : distance / 50 <= 0) by (apply Z.lt_succ_r; apply Z.div_lt_upper_bound; lia).
    replace (Z.to_nat (distance / 50)) with 0%nat by lia. reflexivity.
  - intros Hbig.
    assert (Hsteps : 1 <= distance / 50) by (apply Z.div_le_lower_bound; lia).
    pose proof (Z.mul_div_le distance 50 ltac:(lia)) as Hlow.
    pose proof (Z.mul_succ_div_gt distance 50 ltac:(lia)) as Hhigh.
    set (n := distance / 50) in *.
    assert (Hpos : (0 < inject_Z n)%Q) by (unfold Qlt; cbn; lia).
    assert (Hlo : (50 * inject_Z n <= inject_Z distance)%Q).
    { assert (H : 50 * n <= distance) by lia.
      rewrite Zle_Qle, inject_Z_mult in H. exact H. }
    assert (Hhi : (inject_Z distance < 100 * inject_Z n)%Q).
    { assert (H : distance < 100 * n) by lia.
      rewrite Zlt_Qlt, inject_Z_mult in H. exact H. }
    assert (Hstep : (50 <= inject_Z distance / inject_Z n)%Q
                    /\ (inject_Z distance / inject_Z n < 100)%Q).
    { split.
      - apply Qle_shift_div_l; [exact Hpos|]. lra.
      - apply Qlt_shift_div_r; [exact Hpos|]. lra. }
    split; [rewrite repeat_length; lia|]. split.
    + assert (Hsum : forall (v : Q) (k : nat),
                (fold_right Qplus 0 (repeat v k) == inject_Z (Z.of_nat k) * v)%Q).
      { intros v k. induction k as [|k IH]; cbn [repeat fold_right].
        - cbn. ring.
        - rewrite IH, Nat2Z.inj_succ. unfold Z.succ. rewrite inject_Z_plus. ring. }
      rewrite Hsum. rewrite Z2Nat.id by lia.
      destruct down; field; lra.
    + apply Forall_forall. intros delta Hin. apply repeat_spec in Hin. subst delta.
      destruct down; cbv zeta.
      * exact Hstep.
      * destruct Hstep. split; lra.
Qed.

End PointerMoves.

(** ** Login outcomes *)
Section LoginOutcomes.
Import JS Auth.

(** X16.  [performLogin] succeeds exactly when one of the first three attempts
    does, and it then stops at the first one that does; with draws in
    [0, 1) all its back-offs together last at most 8 seconds. *)
Theorem performLogin_outcome (pages : nat -> LoginPage) (rnd : nat -> Q) :
  (forall n, (0 <= rnd n)%Q /\ (rnd n < 1)%Q) ->
  let run := performLogin pages rnd in
  (snd run = Resolved tt
   <-> exists k, (1 <= k <= 3)%nat /\ attemptOnce (pages k) = Resolved tt)
  /\ (forall k, (1 <= k <= 3)%nat ->
        attemptOnce (pages k) = Resolved tt ->
        (forall j, (1 <= j < k)%nat -> attemptOnce (pages j) <> Resolved tt) ->
        attempts (fst run) = k)
  /\ 0 <= totalBackoff (fst run) <= 8000.
Proof.
  intros Hd run. subst run. rewrite performLogin_unfold.
  pose proof (delayOf_bounds 2000 3000 (rnd 1%nat) (proj1 (Hd _)) (proj2 (Hd _))
                             ltac:(lia)) as D1.
  pose proof (delayOf_bounds 4000 5000 (rnd 2%nat) (proj1 (Hd _)) (proj2 (Hd _))
                             ltac:(lia)) as D2.
  assert (Hcases : forall k, (1 <= k <= 3)%nat -> k = 1%nat \/ k = 2%nat \/ k = 3%nat)
    by (intros; lia).
  destruct (attemptOnce (pages 1%nat)) as [[]|e1] eqn:E1;
    [|destruct (attemptOnce (pages 2%nat)) as [[]|e2] eqn:E2;
      [|destruct (attemptOnce (pages 3%nat)) as [[]|e3] eqn:E3]];
    cbn [fst snd app attempts totalBackoff];
    (split; [split;
             [intros H; try discriminate H;
              first [exists 1%nat; split; [lia|assumption]
                    |exists 2%nat; split; [lia|assumption]
                    |exists 3%nat; split; [lia|assumption]]
             |intros (k & Hk & Hok);
              destruct (Hcases k Hk) as [->|[->| ->]]; try congruence; reflexivity]
            |]);
    (split; [|lia]);
    intros k Hk Hok Hbefore;
    destruct (Hcases k Hk) as [->|[->| ->]]; try congruence; try reflexivity;
    exfalso;
    first [apply (Hbefore 1%nat); [lia|assumption]
          |apply (Hbefore 2%nat); [lia|assumption]].
Qed.

Lemma includes_app_r (a b needle : string) :
  includes b needle = true -> includes (a ++ b) needle = true.
Proof.
  intros Hb. induction a as [|c a IH]; cbn [append]; [exact Hb|].
  cbn [includes]. rewrite IH. apply orb_true_r.
Qed.

(** X17.  [waitForLoginResult] resolves exactly when a success signal wins the
    race and the address then holds [dashboard] or [student].  No error it
    throws mentions [Timeout]: an error that does is replaced by the
    login-timeout error, and so is the text of an error element that
    happens to hold that word. *)
Theorem waitForLoginResult_outcomes (p : LoginPage) :
  (waitForLoginResult p = Resolved tt
   <-> race p = SuccessSignal
       /\ (includes (urlAfter p) "dashboard" = true
           \/ includes (urlAfter p) "student" = true))
  /\ (forall message, waitForLoginResult p = Thrown message ->
        includes message "Timeout" = false)
  /\ (forall errorText,
        race p = SuccessSignal ->
        includes (urlAfter p) "dashboard" = false ->
        includes (urlAfter p) "student" = false ->
        errorElement p = Some errorText ->
        includes errorText "Timeout" = true ->
        waitForLoginResult p
        = Thrown "Login timeout - page did not redirect after form submission").
Proof.
  unfold waitForLoginResult, loginResultTry. split; [|split].
  - destruct (race p); cbn.
    + destruct (includes (urlAfter p) "dashboard"), (includes (urlAfter p) "student");
        cbn [negb andb]; try (split; [auto | reflexivity]);
        destruct (errorElement p);
        match goal with
        | |- context [if ?c then _ else _] => destruct c
        end; split; try discriminate; intros [_ [H|H]]; discriminate.
    + split; [discriminate | intros [H _]; discriminate].
    + destruct (includes message "Timeout");
        (split; [discriminate | intros [H _]; discriminate]).
  - intros message.
    destruct (match race p with
              | SuccessSignal => _
              | ErrorSignal => _
              | Rejected m => _
              end) as [u|thrown]; [discriminate|].
    destruct (includes thrown "Timeout") eqn:Hthrown; intros H; injection H as <-;
      [reflexivity | exact Hthrown].
  - intros errorText -> -> -> -> Htext. cbn [negb andb].
    now rewrite (includes_app_r "Login failed: " errorText "Timeout" Htext).
Qed.

End LoginOutcomes.

(** ** Polling the captcha service *)
Section CaptchaPolling.
Import JS Captcha.

Lemma pollFrom_bounded (replies : nat -> Reply) (latency : nat -> Z) (fuel : nat) :
  (forall k, 0 <= latency k) ->
  forall k elapsed,
    maxWaitTime <= elapsed + pollInterval * Z.of_nat fuel ->
    fst (pollFrom fuel k elapsed replies latency) <> StillPolling
    /\ (snd (pollFrom fuel k elapsed replies latency) <= k + fuel)%nat.
Proof.
  intros Hlat. unfold maxWaitTime, pollInterval.
  induction fuel as [|fuel IH]; intros k elapsed Hfuel; cbn [pollFrom];
    unfold maxWaitTime, pollInterval.
  - replace (elapsed <? 120000) with false
      by (symmetry; apply Z.ltb_ge; lia).
    cbn. split; [discriminate | lia].
  - destruct (elapsed <? 120000); [|cbn; split; [discriminate | lia]].
    specialize (Hlat k).
    destruct (replies k); cbn [fst snd]; try (split; [discriminate | lia]);
      destruct (IH (S k) (elapsed + latency k + 5000) ltac:(lia)) as [Hend Hn];
      (split; [exact Hend | lia]).
Qed.

(** X18.  [pollForResult] always ends: whatever the service answers, it makes at
    most 24 requests.  It returns a solution only when a reply says [ready],
    and [null] after 24 replies that all say [processing] or fail. *)
Theorem pollForResult_ends (replies : nat -> Reply) (latency : nat -> Z) :
  (forall k, 0 <= latency k) ->
  fst (pollForResult replies latency) <> StillPolling
  /\ (snd (pollForResult replies latency) <= 24)%nat
  /\ (forall solution,
        fst (pollForResult replies latency) = Returned (Some solution) ->
        exists k text token,
          (k < 24)%nat /\ replies k = Ready text token
          /\ orElse text token = Some solution)
  /\ ((forall k, (k < 24)%nat -> replies k = Processing \/ replies k = RequestFailed) ->
      fst (pollForResult replies latency) = Returned None
      /\ ((forall k, latency k = 0) -> snd (pollForResult replies latency) = 24%nat)).
Proof.
  intros Hlat.
  destruct (pollFrom_bounded replies latency 24 Hlat 0%nat 0) as [Hend Hcount];
    [unfold maxWaitTime, pollInterval; lia|].
  split; [exact Hend|]. split; [exact Hcount|]. split.
  - unfold pollForResult.
    assert (Hgen : forall fuel k elapsed solution,
              fst (pollFrom fuel k elapsed replies latency) = Returned (Some solution) ->
              exists j text token,
                (k <= j < k + fuel)%nat /\ replies j = Ready text token
                /\ orElse text token = Some solution).
    { induction fuel as [|fuel IH]; intros k elapsed solution; cbn [pollFrom].
      - destruct (elapsed <? maxWaitTime); cbn; discriminate.
      - destruct (elapsed <? maxWaitTime); [|cbn; discriminate].
        destruct (replies k) as [text token| | | |] eqn:Hk; cbn [fst];
          try discriminate.
        + intros H. exists k, text, token. split; [lia|]. split; [exact Hk|].
          destruct (orElse text token); [congruence | discriminate].
        + intros H. apply IH in H as (j & text & token & Hj & Hr & Hs).
          exists j, text, token. split; [lia | auto].
        + intros H. apply IH in H as (j & text & token & Hj & Hr & Hs).
          exists j, text, token. split; [lia | auto]. }
    intros solution H. apply Hgen in H as (j & text & token & Hj & Hr & Hs).
    exists j, text, token. split; [lia | auto].
  - intros Hbusy. unfold pollForResult. split.
    + assert (Hgen : forall fuel k elapsed,
                (k + fuel = 24)%nat ->
                maxWaitTime <= elapsed + pollInterval * Z.of_nat fuel ->
                fst (pollFrom fuel k elapsed replies latency) = Returned None).
      { unfold maxWaitTime, pollInterval.
        induction fuel as [|fuel IH]; intros k elapsed Hk Hfuel; cbn [pollFrom];
          unfold maxWaitTime, pollInterval.
        - replace (elapsed <? 120000) with false by (symmetry; apply Z.ltb_ge; lia).
          reflexivity.
        - destruct (elapsed <? 120000); [|reflexivity].
          specialize (Hlat k).
          destruct (Hbusy k ltac:(lia)) as [-> | ->]; apply IH; lia. }
      apply Hgen; unfold maxWaitTime, pollInterval; lia.
    + intros Hzero.
      assert (Hgen : forall fuel k,
                (k + fuel = 24)%nat ->
                snd (pollFrom fuel k (pollInterval * Z.of_nat k) replies latency)
                = 24%nat).
      { unfold pollInterval.
        induction fuel as [|fuel IH]; intros k Hk; cbn [pollFrom];
          unfold maxWaitTime, pollInterval.
        - replace (5000 * Z.of_nat k <? 120000) with false
            by (symmetry; apply Z.ltb_ge; lia).
          cbn. lia.
        - replace (5000 * Z.of_nat k <? 120000) with true
            by (symmetry; apply Z.ltb_lt; lia).
          rewrite Hzero.
          replace (5000 * Z.of_nat k + 0 + 5000) with (5000 * Z.of_nat (S k)) by lia.
          destruct (Hbusy k ltac:(lia)) as [-> | ->]; apply IH; lia. }
      apply (Hgen 24%nat 0%nat). reflexivity.
Qed.

End CaptchaPolling.

(** ** Search snippets *)
Section MatchContext.
Import JS Mcp.

Lemma length_append (a b : string) :
  String.length (a ++ b) = (String.length a + String.length b)%nat.
Proof. induction a as [|c a IH]; cbn; [reflexivity | now rewrite IH]. Qed.
















End MatchContext.

(** ** The tools that read the history *)
Section HistoryTools.
Import JS Mcp.

Variable Date_parse : string -> option Z.


Lemma slice_last {A} (array : list A) (n : Z) :
  0 < n -> slice array (- n) None = skipn (List.length array - Z.to_nat n) array.
Proof.
  intros Hn. unfold slice.
  replace (- n <? 0) with true by (symmetry; apply Z.ltb_lt; lia).
  set (len := Z.of_nat (List.length array)).
  replace (Z.to_nat (Z.max (len + - n) 0)) with (List.length array - Z.to_nat n)%nat
    by (subst len; lia).
  apply firstn_all2. rewrite length_skipn. subst len. lia.
Qed.

Lemma slice_drop {A} (array : list A) (n : Z) :
  0 <= n -> slice array n None = skipn (Z.to_nat n) array.
Proof.
  intros Hn. unfold slice.
  replace (n <? 0) with false by (symmetry; apply Z.ltb_ge; lia).
  set (len := Z.of_nat (List.length array)).
  destruct (Z.le_ge_cases n len) as [Hle|Hge].
  - replace (Z.min n len) with n by lia.
    apply firstn_all2. rewrite length_skipn. subst len. lia.
  - replace (Z.min n len) with len by lia.
    subst len. rewrite Nat2Z.id, skipn_all.
    rewrite (skipn_all2 array) by lia. now destruct (Z.to_nat _).
Qed.

(** X20.  The [limit] of [fetch_history]: a positive limit keeps the last [limit]
    messages, no limit or 0 keeps them all, and a negative limit drops the
    oldest [-limit] messages instead of limiting; [total_count] counts what
    is returned.  An error of the bot comes back as a failure with its
    message. *)
Theorem fetchHistory_limit (limit : option Z) (h : list Chat.Message) :
  (limit = None \/ limit = Some 0 ->
   fetchHistory limit (Resolved h) = Success (h, List.length h))
  /\ (forall n, limit = Some n -> 0 < n ->
        fetchHistory limit (Resolved h)
        = Success (skipn (List.length h - Z.to_nat n) h,
                   Nat.min (Z.to_nat n) (List.length h)))
  /\ (forall n, limit = Some n -> n < 0 ->
        fetchHistory limit (Resolved h)
        = Success (skipn (Z.to_nat (- n)) h,
                   (List.length h - Z.to_nat (- n))%nat))
  /\ (forall message, fetchHistory limit (Thrown message) = Failure message).
Proof.
  split; [|split; [|split]].
  - intros [-> | ->]; reflexivity.
  - intros n -> Hn. unfold fetchHistory.
    replace (n =? 0) with false by (symmetry; apply Z.eqb_neq; lia).
    rewrite slice_last by exact Hn. rewrite length_skipn.
    do 2 f_equal. lia.
  - intros n -> Hn. unfold fetchHistory.
    replace (n =? 0) with false by (symmetry; apply Z.eqb_neq; lia).
    rewrite slice_drop by lia. now rewrite length_skipn.
  - reflexivity.
Qed.







End HistoryTools.

(** ** More on the extraction pass *)
Section PassResults.
Import JS Chat.

Variable Date_parse : string -> option Z.
Variable toISOString : Z -> string.

#[local] Abbreviation same' := (sameMessage Date_parse).
#[local] Abbreviation sorted' := (sortByTimestamp Date_parse).
#[local] Abbreviation unique' := (uniqueMessages Date_parse).
#[local] Abbreviation firsts' := (filterFirsts Date_parse).

(** [a] is not later than [b], as far as both timestamps are dates. *)
#[local] Abbreviation notLater a b :=
  (forall ta tb, Date_parse (timestamp a) = Some ta ->
                 Date_parse (timestamp b) = Some tb -> ta <= tb).

Lemma insertSorted_ordered (m : Message) (l : list Message) :
  ForallOrdPairs (fun a b => notLater a b) l ->
  ForallOrdPairs (fun a b => notLater a b) (insertSorted Date_parse m l).
Proof.
  induction 1 as [|x l Hx Hl IH]; cbn [insertSorted].
  - repeat constructor.
  - destruct (before Date_parse x m) eqn:Hbefore.
    + constructor; [|exact IH].
      apply Forall_forall. intros y Hy. apply insertSorted_In in Hy as [->|Hy].
      * intros ta tb Ha Hb. unfold before, timeDiff in Hbefore.
        rewrite Ha, Hb in Hbefore. apply Z.leb_le in Hbefore. lia.
      * rewrite Forall_forall in Hx. now apply Hx.
    + constructor; [|constructor; assumption].
      unfold before, timeDiff in Hbefore.
      constructor.
      * intros ta tb Ha Hb. rewrite Hb, Ha in Hbefore.
        apply Z.leb_gt in Hbefore. lia.
      * rewrite Forall_forall in Hx |- *. intros y Hy ta tb Ha Hb.
        destruct (Date_parse (timestamp x)) as [tx|] eqn:Ex; [|discriminate].
        rewrite Ha in Hbefore. apply Z.leb_gt in Hbefore.
        specialize (Hx y Hy tx tb eq_refl Hb). lia.
Qed.

Lemma sortByTimestamp_ordered (l : list Message) :
  ForallOrdPairs (fun a b => notLater a b) (sorted' l).
Proof.
  unfold sortByTimestamp.
  assert (H : forall acc,
            ForallOrdPairs (fun a b => notLater a b) acc ->
            ForallOrdPairs (fun a b => notLater a b)
              (fold_left (fun done m => insertSorted Date_parse m done) l acc)).
  { induction l as [|m rest IH]; intros acc Hacc; cbn [fold_left]; [exact Hacc|].
    apply IH. now apply insertSorted_ordered. }
  apply H. constructor.
Qed.

Lemma filterFirsts_subset (array rest : list Message) :
  forall i b, In b (firsts' array i rest) -> In b rest.
Proof.
  induction rest as [|m rest IH]; intros i b Hin; cbn [filterFirsts] in Hin.
  - contradiction.
  - destruct (i =? findIndex (same' m) array); [destruct Hin as [<-|Hin]|];
      [now left | right; eauto | right; eauto].
Qed.

Lemma filterFirsts_keeps_order (R : Message -> Message -> Prop)
      (array rest : list Message) :
  ForallOrdPairs R rest -> forall i, ForallOrdPairs R (firsts' array i rest).
Proof.
  induction 1 as [|m rest Hm Hrest IH]; intros i; cbn [filterFirsts].
  - constructor.
  - destruct (i =? findIndex (same' m) array); [|apply IH].
    constructor; [|apply IH].
    rewrite Forall_forall in Hm |- *. intros b Hb.
    apply Hm. eapply filterFirsts_subset; eauto.
Qed.

Lemma collect_In (page : Page) (clock : nat -> Z) (selectors : list string) (m : Message) :
  In m (collect Date_parse toISOString selectors page clock) ->
  exists el now idx, extractMessageData Date_parse toISOString el now idx = Some m.
Proof.
  induction selectors as [|selector rest IH]; cbn [collect]; [contradiction|].
  destruct (page selector) as [elements|]; [|exact IH].
  destruct (0 <? List.length elements)%nat; [|exact IH].
  intros Hin. apply extractEach_In in Hin as (k & el & _ & Hm). eauto.
Qed.

Lemma deduplicated_sort_ascending (found : list Message) :
  (forall m, In m found -> Date_parse (timestamp m) <> None) ->
  forall i j a b,
    (i < j)%nat ->
    nth_error (unique' (sorted' found)) i = Some a ->
    nth_error (unique' (sorted' found)) j = Some b ->
    exists ta tb,
      Date_parse (timestamp a) = Some ta /\ Date_parse (timestamp b) = Some tb
      /\ ta <= tb.
Proof.
  intros Hvalid i j a b Hij Ha Hb.
  assert (Hin : forall x k, nth_error (unique' (sorted' found)) k = Some x ->
                            Date_parse (timestamp x) <> None).
  { intros x k Hx. apply Hvalid. apply nth_error_In in Hx.
    apply filterFirsts_subset in Hx. now apply sortByTimestamp_In in Hx. }
  pose proof (filterFirsts_keeps_order _ (sorted' found) (sorted' found)
                (sortByTimestamp_ordered found) 0) as Hordered.
  pose proof (ordPairs_nth _ _ Hordered i j a b Hij Ha Hb) as Hab.
  cbv beta in Hab.
  destruct (Date_parse (timestamp a)) as [ta|] eqn:Ea;
    [|exfalso; apply (Hin a i Ha); exact Ea].
  destruct (Date_parse (timestamp b)) as [tb|] eqn:Eb;
    [|exfalso; apply (Hin b j Hb); exact Eb].
  exists ta, tb. auto.
Qed.

(** X22.  The result of a pass is in ascending order of time: when every timestamp
    of the pass is a date, of two messages of the result the earlier one in
    the list has the time value that is not the later. *)
Theorem extractMessages_ascending (page : Page) (clock : nat -> Z) :
  (forall m, In m (collect Date_parse toISOString messageSelectors page clock) ->
             Date_parse (timestamp m) <> None) ->
  forall i j a b,
    (i < j)%nat ->
    nth_error (extractMessages Date_parse toISOString page clock) i = Some a ->
    nth_error (extractMessages Date_parse toISOString page clock) j = Some b ->
    exists ta tb,
      Date_parse (timestamp a) = Some ta /\ Date_parse (timestamp b) = Some tb
      /\ ta <= tb.
Proof.
  exact (deduplicated_sort_ascending
           (collect Date_parse toISOString messageSelectors page clock)).
Qed.

Lemma orDefault_truthy (a : option string) (d : string) :
  truthy d = true -> truthy (orDefault a d) = true.
Proof.
  intros Hd. unfold orDefault. destruct a as [s|]; [|exact Hd].
  destruct (truthy s) eqn:Hs; [exact Hs | exact Hd].
Qed.

Lemma extractMessageData_wellformed (el : Handle) (now : Z) (idx : nat) (m : Message) :
  extractMessageData Date_parse toISOString el now idx = Some m ->
  truthy (text m) = true /\ truthy (id m) = true /\ truthy (sender m) = true
  /\ (type m = "sent" \/ type m = "received").
Proof.
  intros Hm. unfold extractMessageData, evaluateMessage in Hm.
  destruct (detached el); [discriminate|].
  match type of Hm with
  | context [negb (truthy ?t)] => destruct (truthy t) eqn:Htext
  end; cbn [negb] in Hm; [|discriminate].
  injection Hm as <-. cbn [text id sender type].
  split; [exact Htext|]. split; [|split].
  - apply orDefault_truthy. reflexivity.
  - apply orDefault_truthy. now destruct (isOwnMessage el).
  - destruct (isOwnMessage el); auto.
Qed.

Lemma collected_wellformed (selectors : list string) (page : Page) (clock : nat -> Z)
      (m : Message) :
  In m (unique' (sorted' (collect Date_parse toISOString selectors page clock))) ->
  truthy (text m) = true /\ truthy (id m) = true /\ truthy (sender m) = true
  /\ (type m = "sent" \/ type m = "received").
Proof.
  intros Hin.
  apply filterFirsts_subset in Hin. apply sortByTimestamp_In in Hin.
  apply collect_In in Hin as (el & now & idx & Hm).
  exact (extractMessageData_wellformed el now idx m Hm).
Qed.

(** X23.  Every message of a pass has a non-empty text, a non-empty identifier and
    a non-empty sender, and its type is ["sent"] or ["received"]. *)
Theorem extractMessages_wellformed (page : Page) (clock : nat -> Z) (m : Message) :
  In m (extractMessages Date_parse toISOString page clock) ->
  truthy (text m) = true /\ truthy (id m) = true /\ truthy (sender m) = true
  /\ (type m = "sent" \/ type m = "received").
Proof.
  exact (collected_wellformed messageSelectors page clock m).
Qed.

Lemma ordPairs_before {A} (R : A -> A -> Prop) (pre : list A) (m : A) (post : list A) :
  ForallOrdPairs R (pre ++ m :: post) -> forall y, In y pre -> R y m.
Proof.
  induction pre as [|x pre IH]; intros H y Hy; [contradiction|].
  cbn [app] in H. inversion H as [|? ? Hx Hrest]; subst.
  destruct Hy as [<-|Hy].
  - rewrite Forall_forall in Hx. apply Hx. apply in_or_app. right. now left.
  - now apply IH.
Qed.

Lemma filterFirsts_all_kept (array rest : list Message) :
  forall pre,
    array = (pre ++ rest)%list ->
    (forall p m q, array = (p ++ m :: q)%list ->
                   findIndex (same' m) array = Z.of_nat (List.length p)) ->
    firsts' array (Z.of_nat (List.length pre)) rest = rest.
Proof.
  induction rest as [|m rest IH]; intros pre Harray Hall; cbn [filterFirsts].
  - reflexivity.
  - rewrite (Hall pre m rest Harray), Z.eqb_refl. f_equal.
    replace (Z.of_nat (List.length pre) + 1)
      with (Z.of_nat (List.length (pre ++ [m]))) by (rewrite length_app; cbn; lia).
    apply IH; [|exact Hall]. now rewrite <- app_assoc.
Qed.

(** X24.  Removing the duplicates of an array a second time removes nothing. *)
Theorem uniqueMessages_idempotent (array : list Message) :
  unique' (unique' array) = unique' array.
Proof.
  set (out := unique' array).
  apply (filterFirsts_all_kept out out []); [reflexivity|].
  intros p m q Hsplit.
  assert (Hin : In m out) by (rewrite Hsplit; apply in_or_app; right; now left).
  pose proof (filterFirsts_pairs Date_parse array array [] eq_refl) as Hpairs.
  change (Z.of_nat (List.length (@nil Message))) with 0 in Hpairs.
  fold (unique' array) in Hpairs. fold out in Hpairs. rewrite Hsplit in Hpairs.
  unfold out, uniqueMessages in Hin.
  apply filterFirsts_In in Hin as (p' & q' & Harray & Hidx).
  rewrite Harray, Z.add_0_l in Hidx.
  apply findIndex_at in Hidx as [Hself _].
  rewrite Hsplit. apply findIndex_at. split; [exact Hself|].
  intros y Hy. exact (ordPairs_before _ p m q Hpairs y Hy).
Qed.

End PassResults.

(** ** Fetching a history *)
Section FetchingHistory.
Import JS ChatFlow.

Variable Date_parse : string -> option Z.
Variable toISOString : Z -> string.

Lemma fetchChatHistory_cases (a : Arrival) (pages : nat -> Chat.Page) (final : Chat.Page)
      (clock : nat -> Z) :
  let found := existsb (appears a) chatSelectors || (bodyAppears a && hasMessages a) in
  fetchChatHistory Date_parse toISOString a pages final clock
  = if found
    then (fst (Chat.scrollToLoadHistory pages),
          Resolved (Chat.extractMessages Date_parse toISOString final clock))
    else (0%nat, Thrown notFound).
Proof.
  cbv zeta. unfold fetchChatHistory.
  generalize chatSelectors as selectors. intros selectors.
  destruct (find (appears a) selectors) as [chatContainer|] eqn:Hfind.
  - apply find_some in Hfind as [Hin Happears].
    assert (Hex : existsb (appears a) selectors = true)
      by (apply existsb_exists; eauto).
    now rewrite Hex.
  - assert (Hex : existsb (appears a) selectors = false).
    { destruct (existsb (appears a) selectors) eqn:Hex; [|reflexivity].
      apply existsb_exists in Hex as (sel & Hin & Happears).
      now rewrite (find_none _ _ Hfind sel Hin) in Happears. }
    rewrite Hex. cbn [orb]. now destruct (bodyAppears a), (hasMessages a).
Qed.



Lemma fetchHistory_cases (now : Z) (conversationId : string) (st : Session.BotState)
      (navigation : Completion unit)
      (a : Arrival) (pages : nat -> Chat.Page) (final : Chat.Page) (clock : nat -> Z)
      (writable : bool) (file : Storage.File Storage.HistoryData) :
  let run := fetchHistory Date_parse toISOString now conversationId st navigation
                          a pages final clock writable file in
  (forall history,
      snd (fst run) = Resolved history ->
      snd (fetchChatHistory Date_parse toISOString a pages final clock) = Resolved history
      /\ Session.currentConversation (fst (fst run)) = Some conversationId
      /\ snd run = Storage.saveChatHistory toISOString now conversationId history
                                           writable file)
  /\ (forall message, snd (fst run) = Thrown message -> snd run = file).
Proof.
  cbv zeta. unfold fetchHistory.
  remember (snd (fetchChatHistory Date_parse toISOString a pages final clock))
    as fetched eqn:Hfetched.
  clear Hfetched.
  destruct (Session.currentConversation st) as [current|] eqn:Hcurrent.
  - destruct (String.eqb current conversationId) eqn:Hsame.
    + apply String.eqb_eq in Hsame. subst current.
      destruct fetched as [history|message]; cbn [fst snd]; split;
        try discriminate; try (intros; reflexivity).
      intros h Hh. injection Hh as <-. auto.
    + destruct navigation as [[]|message]; [|cbn [fst snd]; split;
        [discriminate | reflexivity]].
      destruct fetched as [history|message]; cbn [fst snd]; split;
        try discriminate; try (intros; reflexivity).
      intros h Hh. injection Hh as <-. auto.
  - destruct navigation as [[]|message]; [|cbn [fst snd]; split;
      [discriminate | reflexivity]].
    destruct fetched as [history|message]; cbn [fst snd]; split;
      try discriminate; try (intros; reflexivity).
    intros h Hh. injection Hh as <-. auto.
Qed.

(** X26.  When [fetchHistory] resolves, the bot is on the conversation asked for
    and, the history file being writable, loading that conversation gives
    the messages returned with their count; on a disk that cannot be written
    the call resolves all the same and the file is unchanged.  When it
    throws, nothing is written. *)
Theorem fetchHistory_stores_result
        (now : Z) (conversationId : string) (st : Session.BotState)
        (navigation : Completion unit)
        (a : Arrival) (pages : nat -> Chat.Page) (final : Chat.Page) (clock : nat -> Z)
        (writable : bool) (file : Storage.File Storage.HistoryData) :
  let run := fetchHistory Date_parse toISOString now conversationId st navigation
                          a pages final clock writable file in
  (forall history,
      snd (fst run) = Resolved history ->
      history = Chat.extractMessages Date_parse toISOString final clock
      /\ Session.currentConversation (fst (fst run)) = Some conversationId
      /\ (writable = true ->
          Storage.loadChatHistory conversationId (snd run)
          = Storage.mkConversation history (Some (toISOString now))
                                   (List.length history))
      /\ (writable = false -> snd run = file))
  /\ (forall message, snd (fst run) = Thrown message -> snd run = file).
Proof.
  cbv zeta.
  pose proof (fetchHistory_cases now conversationId st navigation a pages final clock
                                 writable file) as [Hok Hfail].
  cbv zeta in Hok, Hfail.
  remember (fetchHistory Date_parse toISOString now conversationId st navigation
                         a pages final clock writable file) as run eqn:Hrun.
  clear Hrun.
  split; [|exact Hfail].
  intros history Hresolved. destruct (Hok history Hresolved) as (Hfetched & Hcur & Hfile).
  split; [|split; [exact Hcur|split]].
  - rewrite fetchChatHistory_cases in Hfetched.
    destruct (existsb (appears a) chatSelectors || (bodyAppears a && hasMessages a));
      cbn [snd] in Hfetched; [|discriminate].
    now injection Hfetched as <-.
  - intros ->. rewrite Hfile. unfold Storage.saveChatHistory, Storage.writeFile.
    unfold Storage.loadChatHistory. cbn [Storage.loadAll].
    now rewrite lookup_assign_same.
  - intros ->. rewrite Hfile. reflexivity.
Qed.

End FetchingHistory.

(** ** Solving an image captcha *)
Section CaptchaSolution.
Import JS Captcha.

Lemma pollFrom_solution (replies : nat -> Reply) (latency : nat -> Z) (fuel : nat) :
  forall k elapsed solution requests,
    pollFrom fuel k elapsed replies latency = (Returned (Some solution), requests) ->
    exists last text token,
      requests = S last /\ (k <= last)%nat
      /\ replies last = Ready text token
      /\ orElse text token = Some solution
      /\ forall j, (k <= j < last)%nat ->
                   replies j = Processing \/ replies j = RequestFailed.
Proof.
  induction fuel as [|fuel IH]; intros k elapsed solution requests Hrun;
    cbn [pollFrom] in Hrun.
  - destruct (elapsed <? maxWaitTime); discriminate.
  - destruct (elapsed <? maxWaitTime); [|discriminate].
    destruct (replies k) as [text token| | | |] eqn:Hreply; try discriminate.
    + exists k, text, token.
      destruct (orElse text token) as [s|] eqn:Hor; [|discriminate].
      injection Hrun as <- <-. repeat split; try lia; try assumption.
    + apply IH in Hrun as (last & text & token & -> & Hle & Hlast & Hor & Hbefore).
      exists last, text, token. repeat split; try lia; try assumption.
      intros j Hj. destruct (Nat.eq_dec j k) as [->|Hne]; [now left|].
      apply Hbefore. lia.
    + apply IH in Hrun as (last & text & token & -> & Hle & Hlast & Hor & Hbefore).
      exists last, text, token. repeat split; try lia; try assumption.
      intros j Hj. destruct (Nat.eq_dec j k) as [->|Hne]; [now right|].
      apply Hbefore. lia.
Qed.

(** X27.  [solveImageCaptcha] returns a solution only with an API key, a
    screenshot and an accepted task; the solution is then not empty and is
    the one of the first reply that was neither [processing] nor a failed
    request, a reply whose status was [ready]. *)
Theorem solveImageCaptcha_solution
        (apiKey screenshot : bool) (taskId : option string)
        (replies : nat -> Reply) (latency : nat -> Z) (solution : string) (requests : nat) :
  solveImageCaptcha apiKey screenshot taskId replies latency = (Some solution, requests) ->
  apiKey = true /\ screenshot = true /\ taskId <> None
  /\ truthy solution = true
  /\ exists last text token,
      requests = S last
      /\ replies last = Ready text token
      /\ orElse text token = Some solution
      /\ forall j, (j < last)%nat -> replies j = Processing \/ replies j = RequestFailed.
Proof.
  unfold solveImageCaptcha, pollForResult.
  destruct apiKey; cbn [negb]; [|discriminate].
  destruct screenshot; cbn [negb]; [|discriminate].
  destruct taskId as [task|]; [|discriminate].
  destruct (pollFrom 24 0 0 replies latency) as [[[s|]|] n] eqn:Hpoll; try discriminate.
  destruct (truthy s) eqn:Htruthy; [|discriminate].
  intros Hrun. injection Hrun as <- <-.
  apply pollFrom_solution in Hpoll as (last & text & token & -> & _ & Hlast & Hor & Hbefore).
  repeat split; try assumption; try discriminate.
  exists last, text, token. repeat split; try assumption.
  intros j Hj. apply Hbefore. lia.
Qed.

End CaptchaSolution.

(** ** The fields of a CSV row *)
Section CsvFields.
Import JS Csv.

Lemma includes_char_cons (c d : ascii) (s : string) :
  includes (String d s) (char c) = Ascii.eqb c d || includes s (char c).
Proof.
  unfold char. cbn [includes startsWith]. now rewrite andb_true_r.
Qed.

Lemma includes_char_char (c d : ascii) :
  includes (char d) (char c) = Ascii.eqb c d.
Proof.
  unfold char. cbn [includes startsWith]. now rewrite andb_true_r, orb_false_r.
Qed.

Lemma includes_char_plus (a b : string) (c : ascii) :
  includes (a ++ b) (char c) = includes a (char c) || includes b (char c).
Proof. unfold char. apply includes_char_app. Qed.

Lemma replaceAll_removes (d : ascii) (to s : string) :
  includes to (char d) = false -> includes (replaceAll d to s) (char d) = false.
Proof.
  intros Hto. induction s as [|e s IH]; cbn [replaceAll]; [reflexivity|].
  rewrite includes_char_plus, IH, orb_false_r.
  destruct (Ascii.eqb e d) eqn:He; [exact Hto|].
  rewrite includes_char_char, Ascii.eqb_sym, He. reflexivity.
Qed.

Lemma replaceAll_adds_nothing (c d : ascii) (to s : string) :
  includes s (char c) = false -> includes to (char c) = false ->
  includes (replaceAll d to s) (char c) = false.
Proof.
  intros Hs Hto. induction s as [|e s IH]; cbn [replaceAll]; [reflexivity|].
  rewrite includes_char_cons in Hs. apply orb_false_elim in Hs as [Hce Hrest].
  rewrite includes_char_plus, (IH Hrest), orb_false_r.
  destruct (Ascii.eqb e d); [exact Hto|].
  rewrite includes_char_char, Hce. reflexivity.
Qed.

Lemma trimStart_adds_nothing (c : ascii) (s : string) :
  includes s (char c) = false -> includes (trimStart s) (char c) = false.
Proof.
  induction s as [|e s IH]; intros Hs; cbn [trimStart]; [exact Hs|].
  destruct (isSpace e); [|exact Hs].
  rewrite includes_char_cons in Hs. apply orb_false_elim in Hs as [_ Hrest]. auto.
Qed.

Lemma trimEnd_adds_nothing (c : ascii) (s : string) :
  includes s (char c) = false -> includes (trimEnd s) (char c) = false.
Proof.
  induction s as [|e s IH]; intros Hs; cbn [trimEnd]; [exact Hs|].
  rewrite includes_char_cons in Hs. apply orb_false_elim in Hs as [Hce Hrest].
  specialize (IH Hrest).
  destruct (trimEnd s) as [|k kept].
  - destruct (isSpace e); [reflexivity|].
    rewrite includes_char_cons, Hce. reflexivity.
  - rewrite includes_char_cons, Hce, IH. reflexivity.
Qed.

Lemma cleanTextForCSV_without (c : ascii) (text : string) :
  (c = lineFeed \/ c = carriageReturn \/ c = tab) ->
  includes (cleanTextForCSV text) (char c) = false.
Proof.
  intros Hc. unfold cleanTextForCSV, trim.
  apply trimEnd_adds_nothing, trimStart_adds_nothing.
  destruct Hc as [-> | [-> | ->]].
  - apply replaceAll_adds_nothing; [|reflexivity].
    apply replaceAll_adds_nothing; [|reflexivity].
    apply replaceAll_removes. reflexivity.
  - apply replaceAll_adds_nothing; [|reflexivity].
    apply replaceAll_removes. reflexivity.
  - apply replaceAll_removes. reflexivity.
Qed.

Lemma escapeCSV_adds_no_break (value : string) :
  includes value (char lineFeed) = false ->
  includes (escapeCSV value) (char lineFeed) = false.
Proof.
  intros Hvalue. unfold escapeCSV.
  destruct (includes value (char comma) || includes value (char doubleQuote)
            || includes value (char lineFeed)); [|exact Hvalue].
  rewrite !includes_char_plus.
  rewrite (replaceAll_adds_nothing lineFeed doubleQuote
             (char doubleQuote ++ char doubleQuote) value Hvalue eq_refl).
  reflexivity.
Qed.

(** X28.  The text of a row is on one line: whatever the message text,
    [cleanTextForCSV] leaves no line feed, carriage return or tab in it, and
    the field that [escapeCSV] makes of it holds no line feed. *)
Theorem cleanTextForCSV_single_line (text : string) :
  includes (cleanTextForCSV text) (char lineFeed) = false
  /\ includes (cleanTextForCSV text) (char carriageReturn) = false
  /\ includes (cleanTextForCSV text) (char tab) = false
  /\ includes (escapeCSV (cleanTextForCSV text)) (char lineFeed) = false.
Proof.
  assert (Hlf : includes (cleanTextForCSV text) (char lineFeed) = false)
    by (apply cleanTextForCSV_without; auto).
  repeat split.
  - exact Hlf.
  - apply cleanTextForCSV_without; auto.
  - apply cleanTextForCSV_without; auto.
  - apply escapeCSV_adds_no_break, Hlf.
Qed.

Lemma append_cancel_r (c : string) :
  forall a b, a ++ c = b ++ c -> a = b.
Proof.
  assert (Hlonger : forall d b, c <> String d b ++ c).
  { intros d b Heq. apply (f_equal String.length) in Heq.
    cbn [append String.length] in Heq. rewrite length_append in Heq. lia. }
  induction a as [|x a IH]; intros [|y b] Heq; cbn [append] in Heq.
  - reflexivity.
  - exfalso. exact (Hlonger y b Heq).
  - exfalso. symmetry in Heq. exact (Hlonger x a Heq).
  - injection Heq as -> Heq. f_equal. now apply IH.
Qed.

Lemma doubled_quotes_inj (v : string) :
  forall w,
    replaceAll doubleQuote (char doubleQuote ++ char doubleQuote) v
    = replaceAll doubleQuote (char doubleQuote ++ char doubleQuote) w ->
    v = w.
Proof.
  induction v as [|c v IH]; intros [|d w] Heq; cbn [replaceAll] in Heq.
  - reflexivity.
  - destruct (Ascii.eqb d doubleQuote); discriminate.
  - destruct (Ascii.eqb c doubleQuote); discriminate.
  - destruct (Ascii.eqb c doubleQuote) eqn:Hc, (Ascii.eqb d doubleQuote) eqn:Hd;
      cbn [char append] in Heq.
    + apply Ascii.eqb_eq in Hc, Hd. subst c d.
      injection Heq as Heq. f_equal. now apply IH.
    + injection Heq as Hq _. subst d. now rewrite Ascii.eqb_refl in Hd.
    + injection Heq as Hq _. subst c. now rewrite Ascii.eqb_refl in Hc.
    + injection Heq as -> Heq. f_equal. now apply IH.
Qed.

Lemma escapeCSV_cases (value : string) :
  (escapeCSV value = value
   /\ includes value (char doubleQuote) = false)
  \/ (escapeCSV value
      = char doubleQuote
        ++ replaceAll doubleQuote (char doubleQuote ++ char doubleQuote) value
        ++ char doubleQuote).
Proof.
  unfold escapeCSV.
  destruct (includes value (char comma)); [now right|].
  destruct (includes value (char doubleQuote)); [now right|].
  destruct (includes value (char lineFeed)); [now right|].
  left. auto.
Qed.

(** X29.  [escapeCSV] is unambiguous: a value without comma, double quote or
    line feed is its own field, every other value is put between double
    quotes, and two different values never give the same field. *)
Theorem escapeCSV_unambiguous (v w : string) :
  (includes v (char comma) = false -> includes v (char doubleQuote) = false ->
   includes v (char lineFeed) = false -> escapeCSV v = v)
  /\ (escapeCSV v <> v ->
      exists body, escapeCSV v = char doubleQuote ++ body ++ char doubleQuote)
  /\ (escapeCSV v = escapeCSV w -> v = w).
Proof.
  split; [|split].
  - intros Hcomma Hquote Hbreak. unfold escapeCSV.
    now rewrite Hcomma, Hquote, Hbreak.
  - intros Hchanged. destruct (escapeCSV_cases v) as [[Hsame _]|Hquoted];
      [contradiction|]. eauto.
  - intros Heq.
    destruct (escapeCSV_cases v) as [[Hv Hvq]|Hv], (escapeCSV_cases w) as [[Hw Hwq]|Hw];
      rewrite Hv, Hw in Heq.
    + exact Heq.
    + exfalso. rewrite Heq in Hvq. cbn [char append] in Hvq.
      rewrite includes_char_cons, Ascii.eqb_refl in Hvq. discriminate.
    + exfalso. rewrite <- Heq in Hwq. cbn [char append] in Hwq.
      rewrite includes_char_cons, Ascii.eqb_refl in Hwq. discriminate.
    + cbn [char append] in Heq. injection Heq as Heq.
      apply doubled_quotes_inj.
      apply (append_cancel_r (String doubleQuote EmptyString)). exact Heq.
Qed.

End CsvFields.

(** ** The properties above on concrete runs *)

(** Cookies saved at 10:30 are loaded a day later. *)
Lemma saveCookies_then_loadCookies_witness :
  Storage.loadCookies string Host.Date_parse (Fixture.savedAt + 86400000)
    (Storage.saveCookies string Host.toISOString Fixture.savedAt ["sid"] true
                         Storage.Missing)
  = Some ["sid"].
Proof.
  destruct (saveCookies_then_loadCookies string Host.Date_parse Host.toISOString
              Fixture.savedAt (Fixture.savedAt + 86400000) ["sid"] Storage.Missing)
    as (Hfresh & _).
  - vm_compute. reflexivity.
  - apply Hfresh. vm_compute. discriminate.
Defined.

(** The greeting appended twice is stored once. *)
Lemma appendMessage_once_witness :
  Storage.appendMessage Host.Date_parse Host.toISOString (Fixture.savedAt + 1000) "c1"
    Fixture.greeting true
    (Storage.appendMessage Host.Date_parse Host.toISOString Fixture.savedAt "c1"
                           Fixture.greeting true Storage.Missing)
  = Storage.appendMessage Host.Date_parse Host.toISOString Fixture.savedAt "c1"
                          Fixture.greeting true Storage.Missing.
Proof.
  destruct (appendMessage_once Host.Date_parse Host.toISOString Fixture.savedAt
              (Fixture.savedAt + 1000) "c1" Fixture.greeting true Storage.Missing)
    as (Hsame & _).
  - vm_compute. discriminate.
  - exact Hsame.
Defined.

(** A message stamped "just now" is appended after the greeting. *)
Lemma appendMessage_invalid_timestamp_witness :
  Storage.messages
    (Storage.loadChatHistory "c1"
       (Storage.appendMessage Host.Date_parse Host.toISOString Fixture.savedAt "c1"
                              Fixture.undated true Fixture.shelf))
  = [Fixture.greeting; Fixture.undated].
Proof.
  exact (appendMessage_invalid_timestamp Host.Date_parse Host.toISOString
           Fixture.savedAt "c1" Fixture.undated Fixture.shelf eq_refl).
Defined.

(** The statistics of the one-message file. *)
Lemma totalMessages_counts_messages_witness :
  Storage.totalMessages Fixture.shelf = 1%nat.
Proof.
  rewrite (totalMessages_counts_messages Fixture.shelf).
  - reflexivity.
  - repeat constructor.
Defined.

(** A second [startListening] after the failed watch starts nothing. *)
Lemma startListening_flag_stays_raised_witness :
  let watch := fun conversation =>
    Chat.startLiveListener Host.Date_parse Host.toISOString conversation Scenario.stored
                           1 None Scenario.always Scenario.quiet Scenario.halfPastTen
                           Scenario.halves Scenario.halves in
  snd (Session.startListening (Some "c1")
         (fst (Session.startListening (Some "c1") Fixture.idle watch)) watch)
  = None.
Proof.
  pose proof (startListening_flag_stays_raised Host.Date_parse Host.toISOString
                Scenario.stored (Some "c1") (Some "c1") None 0 Scenario.always
                Scenario.quiet Scenario.halfPastTen Scenario.halves Scenario.halves
                eq_refl) as H.
  cbv zeta in H. destruct H as (_ & _ & Hagain & _). exact Hagain.
Defined.

(** A delay asked between 1000 and 2000 ms. *)
Lemma randomDelay_within_witness :
  1000 <= Stealth.elapsed
            (snd (Stealth.randomDelay 1000 2000
                    (Stealth.fresh Scenario.halves EmptyString))) - 0
       <= 2000.
Proof.
  refine (proj1 (randomDelay_within 1000 2000
                   (Stealth.fresh Scenario.halves EmptyString) _ _ _)).
  - vm_compute. discriminate.
  - vm_compute. reflexivity.
  - vm_compute. discriminate.
Defined.

(** Typing a text of two characters. *)
Lemma humanType_duration_witness :
  100 + 50 * 2
  <= Stealth.elapsed (snd (Stealth.humanType "hi" (Stealth.fresh Scenario.halves EmptyString)))
  <= 300 + 1249 * 2.
Proof.
  refine (humanType_duration "hi" EmptyString Scenario.halves _).
  intros n. split; vm_compute; [discriminate | reflexivity].
Defined.

(** The position recorded after a move. *)
Lemma humanMouseMove_reaches_target_witness :
  Pointer.stored (snd (Pointer.humanMouseMove 140 212 Fixture.atRest)) = (140, 212)%Q.
Proof.
  refine (proj1 (humanMouseMove_reaches_target 140 212 Fixture.atRest _ _)).
  - vm_compute. discriminate.
  - vm_compute. reflexivity.
Defined.

(** A click on a visible button resolves. *)
Lemma humanClick_near_box_witness :
  fst (Pointer.humanClick (Some Fixture.button) Fixture.atRest) = JS.Resolved tt.
Proof.
  refine (proj1 (proj2 (humanClick_near_box (Some Fixture.button) Fixture.atRest _)
                   Fixture.button eq_refl _ _)).
  - intros n. split; vm_compute; [discriminate | reflexivity].
  - vm_compute. discriminate.
  - vm_compute. discriminate.
Defined.

(** The login that succeeds at its third attempt. *)
Lemma performLogin_outcome_witness :
  Auth.attempts (fst (Auth.performLogin Scenario.thirdTimeLucky Scenario.halves)) = 3%nat.
Proof.
  pose proof (performLogin_outcome Scenario.thirdTimeLucky Scenario.halves) as H.
  cbv zeta in H. destruct H as (_ & Hfirst & _).
  - intros n. split; vm_compute; [discriminate | reflexivity].
  - apply Hfirst.
    + lia.
    + vm_compute. reflexivity.
    + intros j Hj. assert (Hcases : j = 1%nat \/ j = 2%nat) by lia.
      destruct Hcases as [-> | ->]; vm_compute; discriminate.
Defined.

(** A task that is ready at the third request. *)
Lemma pollForResult_ends_witness :
  (snd (Captcha.pollForResult Fixture.readyThird Fixture.prompt) <= 24)%nat.
Proof.
  refine (proj1 (proj2 (pollForResult_ends Fixture.readyThird Fixture.prompt _))).
  intros k. vm_compute. discriminate.
Defined.


(** The first two messages of the pass over the echoes. *)
Lemma extractMessages_ascending_witness :
  exists a b ta tb,
    nth_error (Chat.extractMessages Host.Date_parse Host.toISOString
                 Scenario.echoes Scenario.halfPastTen) 0 = Some a
    /\ nth_error (Chat.extractMessages Host.Date_parse Host.toISOString
                    Scenario.echoes Scenario.halfPastTen) 1 = Some b
    /\ Host.Date_parse (Chat.timestamp a) = Some ta
    /\ Host.Date_parse (Chat.timestamp b) = Some tb
    /\ ta <= tb.
Proof.
  destruct (nth_error (Chat.extractMessages Host.Date_parse Host.toISOString
                         Scenario.echoes Scenario.halfPastTen) 0) as [a|] eqn:Ha;
    [|vm_compute in Ha; discriminate].
  destruct (nth_error (Chat.extractMessages Host.Date_parse Host.toISOString
                         Scenario.echoes Scenario.halfPastTen) 1) as [b|] eqn:Hb;
    [|vm_compute in Hb; discriminate].
  destruct (extractMessages_ascending Host.Date_parse Host.toISOString
              Scenario.echoes Scenario.halfPastTen) with (i := 0%nat) (j := 1%nat)
                                                         (a := a) (b := b)
    as (ta & tb & Hta & Htb & Hle); try assumption.
  - intros m Hin. vm_compute in Hin.
    repeat (destruct Hin as [<-|Hin]; [vm_compute; discriminate|]).
    contradiction.
  - lia.
  - exists a, b, ta, tb. auto.
Defined.

(** Every message of the pass over the echoes has a text. *)
Lemma extractMessages_wellformed_witness :
  Forall (fun m => JS.truthy (Chat.text m) = true)
         (Chat.extractMessages Host.Date_parse Host.toISOString
            Scenario.echoes Scenario.halfPastTen).
Proof.
  apply Forall_forall. intros m Hin.
  exact (proj1 (extractMessages_wellformed Host.Date_parse Host.toISOString
                  Scenario.echoes Scenario.halfPastTen m Hin)).
Defined.

(** The solution returned is the one of the third reply. *)
Lemma solveImageCaptcha_solution_witness :
  exists text token,
    Fixture.readyThird 2 = Captcha.Ready text token
    /\ JS.orElse text token = Some "x7Kp".
Proof.
  destruct (solveImageCaptcha_solution true true (Some "task") Fixture.readyThird
              Fixture.prompt "x7Kp" 3)
    as (_ & _ & _ & _ & last & text & token & Hlast & Hready & Hsolution & _).
  - vm_compute. reflexivity.
  - injection Hlast as <-. exists text, token. auto.
Defined.

(** Cookies stamped "yesterday" are loaded whatever the instant. *)
Lemma loadCookies_staleness_witness :
  Storage.loadCookies string Host.Date_parse Fixture.savedAt
                      (Storage.Holds Fixture.undatedCookies)
  = Some ["sid"].
Proof.
  exact (proj1 (proj2 (loadCookies_staleness string Host.Date_parse Fixture.savedAt
                         (Storage.Holds Fixture.undatedCookies)))
           Fixture.undatedCookies eq_refl eq_refl).
Defined.

(** Appending to one conversation leaves another as it was. *)
Lemma history_writes_are_local_witness :
  Storage.loadChatHistory "c2"
    (Storage.appendMessage Host.Date_parse Host.toISOString Fixture.savedAt "c1"
                           Fixture.undated true Fixture.shelf)
  = Storage.loadChatHistory "c2" Fixture.shelf.
Proof.
  refine (proj1 (proj1 (history_writes_are_local Host.Date_parse Host.toISOString
                          Fixture.savedAt "c1" Fixture.undated [] true Fixture.shelf)
                   "c2" _)).
  discriminate.
Defined.

(** Saving over an unreadable file starts a new document. *)
Lemma saveChatHistory_then_loadChatHistory_witness :
  Storage.loadAll
    (Storage.saveChatHistory Host.toISOString Fixture.savedAt "c1" [Fixture.greeting] true
                             Storage.Unreadable)
  = [("c1", Storage.mkConversation [Fixture.greeting]
                                   (Some (Host.toISOString Fixture.savedAt)) 1)].
Proof.
  exact (proj2 (saveChatHistory_then_loadChatHistory Host.toISOString Fixture.savedAt
                  "c1" [Fixture.greeting] Storage.Unreadable) eq_refl).
Defined.

(** A login at its third attempt, then a second login an hour later on the
    cookies it saved. *)
Lemma login_session_lifecycle_witness :
  let first := Session.login string Host.Date_parse Host.toISOString
                 Fixture.savedAt (Fixture.savedAt + 60000) ["sid"] true Storage.Missing
                 Scenario.heldDashboard Scenario.thirdTimeLucky Scenario.halves in
  Session.login string Host.Date_parse Host.toISOString
    (Fixture.savedAt + 3600000) 0 [] false (snd first)
    Fixture.loggedIn Scenario.onHold Scenario.halves
  = ([], JS.Resolved tt, snd first).
Proof.
  pose proof (login_session_lifecycle string Host.Date_parse Host.toISOString
                Fixture.savedAt (Fixture.savedAt + 60000) (Fixture.savedAt + 3600000)
                ["sid"] Storage.Missing Scenario.heldDashboard Scenario.thirdTimeLucky
                Scenario.halves) as H.
  cbv zeta in H. destruct H as (_ & _ & Hreuse). cbv zeta.
  apply Hreuse.
  - reflexivity.
  - vm_compute. reflexivity.
  - vm_compute. reflexivity.
  - vm_compute. discriminate.
  - discriminate.
  - reflexivity.
Defined.

(** A scroll of 300 pixels is sent in six wheel events. *)
Lemma humanScroll_covers_distance_witness :
  Z.of_nat (List.length (Pointer.wheelDeltas true 300)) = 300 / 50.
Proof.
  refine (proj1 (proj2 (humanScroll_covers_distance true 300) _)). lia.
Defined.

(** The submission that reached the dashboard. *)
Lemma waitForLoginResult_outcomes_witness :
  Auth.waitForLoginResult Fixture.arrived = JS.Resolved tt.
Proof.
  exact (proj2 (proj1 (waitForLoginResult_outcomes Fixture.arrived))
           (conj eq_refl (or_introl eq_refl))).
Defined.

(** A limit of 1 keeps the last message. *)
Lemma fetchHistory_limit_witness :
  Mcp.fetchHistory (Some 1) (JS.Resolved [Fixture.greeting; Fixture.undated])
  = Mcp.Success ([Fixture.undated], 1%nat).
Proof.
  exact (proj1 (proj2 (fetchHistory_limit (Some 1) [Fixture.greeting; Fixture.undated]))
           1 eq_refl eq_refl).
Defined.



(** A history fetched from the page of the echoes is stored with its count. *)
Lemma fetchHistory_stores_result_witness :
  let run := ChatFlow.fetchHistory Host.Date_parse Host.toISOString Fixture.savedAt "c2"
               Fixture.idle (JS.Resolved tt) Fixture.chatOpen Scenario.stallsAfterThree
               Scenario.echoes Scenario.halfPastTen true Fixture.shelf in
  Storage.messageCount (Storage.loadChatHistory "c2" (snd run))
  = List.length (Chat.extractMessages Host.Date_parse Host.toISOString
                   Scenario.echoes Scenario.halfPastTen).
Proof.
  pose proof (fetchHistory_stores_result Host.Date_parse Host.toISOString
                Fixture.savedAt "c2" Fixture.idle (JS.Resolved tt) Fixture.chatOpen
                Scenario.stallsAfterThree Scenario.echoes Scenario.halfPastTen true
                Fixture.shelf) as H.
  cbv zeta in H. destruct H as (Hstored & _). cbv zeta.
  destruct (Hstored (Chat.extractMessages Host.Date_parse Host.toISOString
                       Scenario.echoes Scenario.halfPastTen))
    as (_ & _ & Hloaded & _).
  - vm_compute. reflexivity.
  - rewrite (Hloaded eq_refl). reflexivity.
Defined.

(** A value with a comma is put between double quotes. *)
Lemma escapeCSV_unambiguous_witness :
  exists body,
    Csv.escapeCSV "Hello, world"
    = Csv.char Csv.doubleQuote ++ body ++ Csv.char Csv.doubleQuote.
Proof.
  refine (proj1 (proj2 (escapeCSV_unambiguous "Hello, world" EmptyString)) _).
  vm_compute. discriminate.
Defined.

(** A history saved a day before a cleanup of 30 days is kept. *)
Lemma cleanup_removes_stale_only_witness :
  Storage.loadChatHistory "c1"
    (Storage.cleanup Host.Date_parse (Fixture.savedAt + 86400000) 30 true
       (Storage.saveChatHistory Host.toISOString Fixture.savedAt "c1"
                                [Fixture.greeting] true Storage.Missing))
  = Storage.mkConversation [Fixture.greeting]
                           (Some (Host.toISOString Fixture.savedAt)) 1.
Proof.
  pose proof (cleanup_removes_stale_only Host.Date_parse Host.toISOString
                (Fixture.savedAt + 86400000) 30 true
                (Storage.saveChatHistory Host.toISOString Fixture.savedAt "c1"
                                         [Fixture.greeting] true Storage.Missing)) as H.
  cbv zeta in H. destruct H as (_ & _ & Hsaved).
  apply (Hsaved Fixture.savedAt "c1" [Fixture.greeting] Storage.Missing).
  - vm_compute. reflexivity.
  - vm_compute. discriminate.
  - reflexivity.
Defined.

